(** * LifeLens Core ML export script: create_coreml_models.py

    A shallow embedding of [LifeLens/LifeLens/ML/Models/create_coreml_models.py]
    and the properties of its straight-line control flow.

    The script is glue code around three external libraries (Keras,
    coremltools, the Python runtime).  Their calls are the observable
    actions of the program.  The embedding keeps

    - the arguments the script passes to every library call, as data;
    - the values the calls return, as symbolic terms built from those
      arguments (a Keras model is the list of its layers, a converted model
      records what it was converted from and with which options);
    - the initial weights of a network, which the library draws for every
      network it builds, apart from those terms, as an arbitrary
      initialiser;
    - whether a call raises, as an arbitrary [oracle] that sees the whole
      current world and the call: every theorem of the file is proved for
      every oracle;
    - the effects on the file system and on standard output, as explicit
      state. *)

From Stdlib Require Import QArith.
From stdpp Require Import gmap strings list fin_maps.

Local Open Scope string_scope.
Local Open Scope Z_scope.
Local Open Scope list_scope.

(** ** Data: what the script hands to the libraries *)

(** [keras.layers.*] constructors, with the arguments used in the script.
    Keyword arguments the script leaves out are [None]. *)
Inductive Layer : Type :=
| Input (shape : list Z) (name : string)
| Reshape (target_shape : list Z)
| Conv1D (filters kernel_size : Z) (activation : string) (padding : option string)
| MaxPooling1D (pool_size : Z)
| GlobalMaxPooling1D
| Dense (units : Z) (activation : string) (name : option string)
| Dropout (rate : Q)
| BatchNormalization
| LSTM (units : Z) (return_sequences : option bool)
| Flatten.

(** A [keras.Sequential] object as far as the script determines it: its
    layers and, once [compile] has been called on it, the optimizer and the
    loss.  The initial weights of the network are not here: the library
    draws them when the network is built (see [Initialiser] below). *)
Record KerasModel : Type := mkKeras {
  km_layers : list Layer;
  km_compiled : option (string * string)
}.

(** [ct.TensorType(shape=..., name=...)]. *)
Record TensorType : Type := mkTensorType {
  tt_shape : option (list Z);
  tt_name : string
}.

(** [ct.target.*] and [ct.ComputeUnit.*]. *)
Inductive Target : Type :=
  iOS13 | iOS14 | iOS15 | iOS16 | iOS17 | macOS12 | macOS13.
Inductive ComputeUnit : Type :=
  ALL | CPU_ONLY | CPU_AND_GPU | CPU_AND_NE.

(** A converted model ([ct.models.MLModel]) as far as the script determines
    it: the conversion arguments and the three metadata attributes the
    script assigns.  Two values of this type are equal when the script asked
    for the same thing; the weights inside are the library's. *)
Record MLModel : Type := mkMLModel {
  ml_source : KerasModel;
  ml_inputs : list TensorType;
  ml_outputs : list TensorType;
  ml_target : Target;
  ml_compute_units : ComputeUnit;
  author : string;
  short_description : string;
  version : string
}.

Definition set_author (m : MLModel) (s : string) : MLModel :=
  mkMLModel (ml_source m) (ml_inputs m) (ml_outputs m) (ml_target m)
            (ml_compute_units m) s (short_description m) (version m).
Definition set_short_description (m : MLModel) (s : string) : MLModel :=
  mkMLModel (ml_source m) (ml_inputs m) (ml_outputs m) (ml_target m)
            (ml_compute_units m) (author m) s (version m).
Definition set_version (m : MLModel) (s : string) : MLModel :=
  mkMLModel (ml_source m) (ml_inputs m) (ml_outputs m) (ml_target m)
            (ml_compute_units m) (author m) (short_description m) s.

(** The seven functions the script defines. *)
Inductive ModelFn : Type :=
| Arrhythmia | Troponin | BloodPressure | FallDetection
| ActivityRecognition | SignalQuality | Glucose.

Global Instance ModelFn_eq_dec : EqDecision ModelFn.
Proof. solve_decision. Defined.
Global Instance Q_eq_dec : EqDecision Q.
Proof. solve_decision. Defined.
Global Instance Layer_eq_dec : EqDecision Layer.
Proof. solve_decision. Defined.
Global Instance KerasModel_eq_dec : EqDecision KerasModel.
Proof. solve_decision. Defined.
Global Instance TensorType_eq_dec : EqDecision TensorType.
Proof. solve_decision. Defined.
Global Instance Target_eq_dec : EqDecision Target.
Proof. solve_decision. Defined.
Global Instance ComputeUnit_eq_dec : EqDecision ComputeUnit.
Proof. solve_decision. Defined.
Global Instance MLModel_eq_dec : EqDecision MLModel.
Proof. solve_decision. Defined.

(** ** The world: file system, standard output, history *)

(** A Python exception: its class and its message. *)
Inductive Exn : Type := PyExc (cls msg : string).

(** [FileExistsError(17, 'File exists', path)], with the message Python
    gives it. *)
Definition FileExistsError (path : string) : Exn :=
  PyExc "FileExistsError" ("[Errno 17] File exists: '" +:+ path +:+ "'").

(** The external calls of the script. *)
Inductive LibCall : Type :=
| CImport (module : string)
| CMakedirs (path : string) (exist_ok : bool)
| CSequential (layers : list Layer)
| CCompile (m : KerasModel) (optimizer loss : string)
| CConvert (m : KerasModel) (inputs outputs : list TensorType)
           (minimum_deployment_target : Target) (compute_units : ComputeUnit)
| CSave (m : MLModel) (path : string)
| CPrint (line : string).

(** History of a run: a function of the script is entered or returns, or an
    external call is made and returns ([None]) or raises ([Some e]). *)
Inductive Event : Type :=
| EvEnter (f : ModelFn)
| EvReturn (f : ModelFn)
| EvCall (c : LibCall) (outcome : option Exn).

Inductive Node : Type :=
| Dir
| File (content : MLModel).

Global Instance Exn_eq_dec : EqDecision Exn.
Proof. solve_decision. Defined.
Global Instance LibCall_eq_dec : EqDecision LibCall.
Proof. solve_decision. Defined.
Global Instance Event_eq_dec : EqDecision Event.
Proof. solve_decision. Defined.

Record World : Type := mkWorld {
  fs : gmap string Node;
  stdout : list string;
  trace : list Event
}.

Definition record (ev : Event) (w : World) : World :=
  mkWorld (fs w) (stdout w) (trace w ++ [ev]).

(** ** The monad of the script: state, and exceptions that keep the state *)

Definition M (A : Type) : Type := World -> (Exn + A) * World.

Definition ret {A} (a : A) : M A := fun w => (inr a, w).

Definition bind {A B} (m : M A) (k : A -> M B) : M B :=
  fun w => match m w with
           | (inr a, w') => k a w'
           | (inl e, w') => (inl e, w')
           end.

Declare Scope py_scope.
Delimit Scope py_scope with py.
Notation "x <- c ;; k" := (bind c (fun x => k))
  (at level 100, c at next level, right associativity) : py_scope.
Notation "c ;; k" := (bind c (fun _ => k))
  (at level 100, right associativity) : py_scope.
Local Open Scope py_scope.

(** Python's [s * n] on strings. *)
Fixpoint str_repeat (s : string) (n : nat) : string :=
  match n with
  | O => ""
  | S n' => s +:+ str_repeat s n'
  end.
Definition str_mul (s : string) (n : Z) : string := str_repeat s (Z.to_nat n).

(** The oracle under which no call raises, and the empty world. *)
Definition quiet : World -> LibCall -> option Exn := fun _ _ => None.
Definition blank : World := mkWorld ∅ [] [].

(** An oracle under which every [save] fails, and a world in which the
    output directory already exists. *)
Definition disk_full : World -> LibCall -> option Exn := fun _ c =>
  match c with
  | CSave _ _ => Some (PyExc "OSError" "No space left on device")
  | _ => None
  end.
Definition with_dir : World := mkWorld {[ "CoreMLModels" := Dir ]} [] [].

(** A console that takes ASCII only: [print] raises on any other line. *)
Fixpoint is_ascii (s : string) : bool :=
  match s with
  | EmptyString => true
  | String a s' => (Ascii.nat_of_ascii a <? 128)%nat && is_ascii s'
  end.
Definition ascii_console : World -> LibCall -> option Exn := fun _ c =>
  match c with
  | CPrint line =>
      if is_ascii line then None
      else Some (PyExc "UnicodeEncodeError" "ascii codec cannot encode character")
  | _ => None
  end.

(** A world in which [CoreMLModels] is a regular file. *)
Definition blocked : World :=
  mkWorld {[ "CoreMLModels" :=
             File (mkMLModel (mkKeras [] None) [] [] iOS15 ALL "" "" "") ]} [] [].

(** The order in which the main block calls the seven functions. *)
Definition driver_order : list ModelFn :=
  [Arrhythmia; Troponin; BloodPressure; FallDetection;
   ActivityRecognition; SignalQuality; Glucose].

(** The file each function saves, and its path. *)
Definition file_name (f : ModelFn) : string :=
  match f with
  | Arrhythmia => "ECG_Arrhythmia.mlmodel"
  | Troponin => "Troponin_Detection.mlmodel"
  | BloodPressure => "BP_Estimation.mlmodel"
  | FallDetection => "Fall_Detection.mlmodel"
  | ActivityRecognition => "Activity_Recognition.mlmodel"
  | SignalQuality => "Signal_Quality.mlmodel"
  | Glucose => "Glucose_Prediction.mlmodel"
  end.

Definition output_dir : string := "CoreMLModels".
Definition model_path (f : ModelFn) : string := output_dir +:+ "/" +:+ file_name f.

(** Everything the script may write. *)
Definition output_paths : list string := output_dir :: map model_path driver_order.

(** Reading a history: the part a run added, the functions entered, the
    external calls made, the calls that raised. *)
Definition since (w w' : World) : list Event := drop (length (trace w)) (trace w').
Definition printed_since (w w' : World) : list string :=
  drop (length (stdout w)) (stdout w').

Definition entered (ev : Event) : option ModelFn :=
  match ev with EvEnter f => Some f | _ => None end.
Definition invoked (t : list Event) : list ModelFn := omap entered t.

(** Entries and returns only: the call structure of a history. *)
Definition frame (ev : Event) : option Event :=
  match ev with
  | EvEnter f => Some (EvEnter f)
  | EvReturn f => Some (EvReturn f)
  | EvCall _ _ => None
  end.
Definition frames (t : list Event) : list Event := omap frame t.

Definition called (ev : Event) : option LibCall :=
  match ev with EvCall c _ => Some c | _ => None end.
Definition calls (t : list Event) : list LibCall := omap called t.

Definition raised (ev : Event) : option Exn :=
  match ev with EvCall _ (Some e) => Some e | _ => None end.

Definition saved (ev : Event) : option (string * MLModel) :=
  match ev with EvCall (CSave m p) None => Some (p, m) | _ => None end.
Definition saves (t : list Event) : list (string * MLModel) := omap saved t.

(** ** The external calls *)

Section Script.

(** Which external calls raise, and what.  The oracle sees the world at
    the moment of the call, history included, so it covers failures that
    depend on the disk, on earlier calls, or on nothing at all. *)
Variable oracle : World -> LibCall -> option Exn.

(** [os.makedirs(path, exist_ok=ok)] for a path of one component, as the
    Python library documents it: an existing directory is accepted when
    [exist_ok] is set and is an error otherwise, an existing file is an
    error, and creating a missing directory may fail for reasons of the
    operating system.  Every other call raises when the oracle says so. *)
Definition outcome (w : World) (c : LibCall) : option Exn :=
  match c with
  | CMakedirs p ok =>
      match fs w !! p with
      | Some Dir => if ok then None else Some (FileExistsError p)
      | Some (File _) => Some (FileExistsError p)
      | None => oracle w c
      end
  | _ => oracle w c
  end.

(** What a call that returns has done to the world.  Only [os.makedirs],
    [MLModel.save] and [print] are given a path or a line: the first
    creates the directory when it is missing, the second writes the model
    to the path, the third adds a line to standard output. *)
Definition effect (c : LibCall) (w : World) : World :=
  match c with
  | CMakedirs p _ =>
      match fs w !! p with
      | None => mkWorld (<[p := Dir]> (fs w)) (stdout w) (trace w)
      | Some _ => w
      end
  | CSave m p => mkWorld (<[p := File m]> (fs w)) (stdout w) (trace w)
  | CPrint s => mkWorld (fs w) (stdout w ++ [s]) (trace w)
  | _ => w
  end.

Definition lib (c : LibCall) : M unit := fun w =>
  match outcome w c with
  | Some e => (inl e, record (EvCall c (Some e)) w)
  | None => (inr tt, record (EvCall c None) (effect c w))
  end.

Definition note (ev : Event) : M unit := fun w => (inr tt, record ev w).

Definition import_ (module : string) : M unit := lib (CImport module).

Definition os_makedirs (path : string) (exist_ok : bool) : M unit :=
  lib (CMakedirs path exist_ok).

Definition keras_Sequential (layers : list Layer) : M KerasModel :=
  lib (CSequential layers);;
  ret (mkKeras layers None).

(** [model.compile(optimizer=..., loss=...)] updates the model object. *)
Definition compile (model : KerasModel) (optimizer loss : string) : M KerasModel :=
  lib (CCompile model optimizer loss);;
  ret (mkKeras (km_layers model) (Some (optimizer, loss))).

Definition ct_convert (model : KerasModel) (inputs outputs : list TensorType)
    (minimum_deployment_target : Target) (compute_units : ComputeUnit) : M MLModel :=
  lib (CConvert model inputs outputs minimum_deployment_target compute_units);;
  ret (mkMLModel model inputs outputs minimum_deployment_target compute_units "" "" "").

Definition save (coreml_model : MLModel) (path : string) : M unit :=
  lib (CSave coreml_model path).

Definition print (line : string) : M unit := lib (CPrint line).

(** A [def]: the history notes the entry and the normal return. *)
Definition def_ {A} (f : ModelFn) (body : M A) : M A :=
  note (EvEnter f);;
  r <- body;;
  note (EvReturn f);;
  ret r.

(** ** The seven functions of the script *)

Definition create_arrhythmia_detection_model : M MLModel :=
  def_ Arrhythmia (
    model <- keras_Sequential [
      Input [1000] "ecg_signal";
      Reshape [1000; 1];
      Conv1D 64 5 "relu" (Some "same");
      MaxPooling1D 2;
      Conv1D 128 5 "relu" (Some "same");
      MaxPooling1D 2;
      Conv1D 256 3 "relu" (Some "same");
      GlobalMaxPooling1D;
      Dense 128 "relu" None;
      Dropout 0.5;
      Dense 64 "relu" None;
      Dense 4 "softmax" (Some "arrhythmia_class")
    ];;
    model <- compile model "adam" "categorical_crossentropy";;
    coreml_model <- ct_convert model
      [mkTensorType (Some [1; 1000]) "ecg_signal"]
      [mkTensorType None "arrhythmia_probability"]
      iOS15 ALL;;
    let coreml_model := set_author coreml_model "LifeLens Medical AI" in
    let coreml_model := set_short_description coreml_model
                          "ECG Arrhythmia Detection (AFib, VTach, PVCs)" in
    let coreml_model := set_version coreml_model "1.0.0" in
    save coreml_model "CoreMLModels/ECG_Arrhythmia.mlmodel";;
    print "✅ Created ECG_Arrhythmia.mlmodel";;
    ret coreml_model).

Definition create_troponin_detection_model : M MLModel :=
  def_ Troponin (
    model <- keras_Sequential [
      Input [50] "sensor_features";
      Dense 256 "relu" None;
      BatchNormalization;
      Dense 128 "relu" None;
      Dropout 0.4;
      Dense 64 "relu" None;
      Dense 32 "relu" None;
      Dense 1 "linear" (Some "troponin_level")
    ];;
    model <- compile model "adam" "mse";;
    coreml_model <- ct_convert model
      [mkTensorType (Some [1; 50]) "sensor_features"]
      [mkTensorType None "troponin_ng_per_L"]
      iOS15 ALL;;
    let coreml_model := set_author coreml_model "LifeLens Medical AI" in
    let coreml_model := set_short_description coreml_model
                          "Troponin Level Detection (38ng/L sensitivity)" in
    let coreml_model := set_version coreml_model "1.0.0" in
    save coreml_model "CoreMLModels/Troponin_Detection.mlmodel";;
    print "✅ Created Troponin_Detection.mlmodel";;
    ret coreml_model).

Definition create_bp_estimation_model : M MLModel :=
  def_ BloodPressure (
    model <- keras_Sequential [
      Input [200] "ppg_ptt_signal";
      Reshape [200; 1];
      LSTM 64 (Some true);
      LSTM 32 None;
      Dense 64 "relu" None;
      Dense 32 "relu" None;
      Dense 2 "linear" (Some "bp_values")
    ];;
    model <- compile model "adam" "mse";;
    coreml_model <- ct_convert model
      [mkTensorType (Some [1; 200]) "ppg_ptt_signal"]
      [mkTensorType None "blood_pressure"]
      iOS15 ALL;;
    let coreml_model := set_author coreml_model "LifeLens Medical AI" in
    let coreml_model := set_short_description coreml_model
                          "Blood Pressure Estimation (±5 mmHg accuracy)" in
    let coreml_model := set_version coreml_model "1.0.0" in
    save coreml_model "CoreMLModels/BP_Estimation.mlmodel";;
    print "✅ Created BP_Estimation.mlmodel";;
    ret coreml_model).

Definition create_fall_detection_model : M MLModel :=
  def_ FallDetection (
    model <- keras_Sequential [
      Input [100; 6] "imu_data";
      Conv1D 32 3 "relu" None;
      MaxPooling1D 2;
      Conv1D 64 3 "relu" None;
      GlobalMaxPooling1D;
      Dense 32 "relu" None;
      Dense 2 "softmax" (Some "fall_detection")
    ];;
    model <- compile model "adam" "categorical_crossentropy";;
    coreml_model <- ct_convert model
      [mkTensorType (Some [1; 100; 6]) "imu_data"]
      [mkTensorType None "fall_probability"]
      iOS15 ALL;;
    let coreml_model := set_author coreml_model "LifeLens Medical AI" in
    let coreml_model := set_short_description coreml_model
                          "Emergency Fall Detection" in
    let coreml_model := set_version coreml_model "1.0.0" in
    save coreml_model "CoreMLModels/Fall_Detection.mlmodel";;
    print "✅ Created Fall_Detection.mlmodel";;
    ret coreml_model).

Definition create_activity_recognition_model : M MLModel :=
  def_ ActivityRecognition (
    model <- keras_Sequential [
      Input [150; 3] "activity_data";
      Conv1D 32 5 "relu" None;
      MaxPooling1D 2;
      Conv1D 64 5 "relu" None;
      Flatten;
      Dense 64 "relu" None;
      Dense 4 "softmax" (Some "activity_class")
    ];;
    model <- compile model "adam" "categorical_crossentropy";;
    coreml_model <- ct_convert model
      [mkTensorType (Some [1; 150; 3]) "activity_data"]
      [mkTensorType None "activity_probability"]
      iOS15 ALL;;
    let coreml_model := set_author coreml_model "LifeLens Medical AI" in
    let coreml_model := set_short_description coreml_model
                          "Activity Recognition (Exercise/Sleep/Stress)" in
    let coreml_model := set_version coreml_model "1.0.0" in
    save coreml_model "CoreMLModels/Activity_Recognition.mlmodel";;
    print "✅ Created Activity_Recognition.mlmodel";;
    ret coreml_model).

Definition create_signal_quality_model : M MLModel :=
  def_ SignalQuality (
    model <- keras_Sequential [
      Input [100] "signal_data";
      Dense 64 "relu" None;
      Dense 32 "relu" None;
      Dense 16 "relu" None;
      Dense 1 "sigmoid" (Some "quality_score")
    ];;
    model <- compile model "adam" "binary_crossentropy";;
    coreml_model <- ct_convert model
      [mkTensorType (Some [1; 100]) "signal_data"]
      [mkTensorType None "signal_quality"]
      iOS15 ALL;;
    let coreml_model := set_author coreml_model "LifeLens Medical AI" in
    let coreml_model := set_short_description coreml_model
                          "Signal Quality Assessment" in
    let coreml_model := set_version coreml_model "1.0.0" in
    save coreml_model "CoreMLModels/Signal_Quality.mlmodel";;
    print "✅ Created Signal_Quality.mlmodel";;
    ret coreml_model).

Definition create_glucose_prediction_model : M MLModel :=
  def_ Glucose (
    model <- keras_Sequential [
      Input [60; 5] "glucose_history";
      LSTM 64 (Some true);
      LSTM 32 None;
      Dense 32 "relu" None;
      Dense 6 "linear" (Some "glucose_forecast")
    ];;
    model <- compile model "adam" "mse";;
    coreml_model <- ct_convert model
      [mkTensorType (Some [1; 60; 5]) "glucose_history"]
      [mkTensorType None "glucose_predictions"]
      iOS15 ALL;;
    let coreml_model := set_author coreml_model "LifeLens Medical AI" in
    let coreml_model := set_short_description coreml_model
                          "Glucose Prediction (30-min forecast)" in
    let coreml_model := set_version coreml_model "1.0.0" in
    save coreml_model "CoreMLModels/Glucose_Prediction.mlmodel";;
    print "✅ Created Glucose_Prediction.mlmodel";;
    ret coreml_model).

(** The function a name of [ModelFn] stands for. *)
Definition create (f : ModelFn) : M MLModel :=
  match f with
  | Arrhythmia => create_arrhythmia_detection_model
  | Troponin => create_troponin_detection_model
  | BloodPressure => create_bp_estimation_model
  | FallDetection => create_fall_detection_model
  | ActivityRecognition => create_activity_recognition_model
  | SignalQuality => create_signal_quality_model
  | Glucose => create_glucose_prediction_model
  end.

(** ** The module body *)

(** Lines 8 to 16: the imports, and the output directory. *)
Definition module_init : M unit :=
  import_ "coremltools";;
  import_ "numpy";;
  import_ "coremltools.models.neural_network";;
  import_ "tensorflow";;
  import_ "tensorflow.keras";;
  import_ "os";;
  os_makedirs "CoreMLModels" true.

Definition summary_line : string := "✅ All Core ML models created successfully!".

(** Lines 268 to 286: the body of [if __name__ == "__main__":]. *)
Definition main_block : M unit :=
  print "Creating Core ML models for LifeLens...";;
  print (str_mul "=" 50);;
  create_arrhythmia_detection_model;;
  create_troponin_detection_model;;
  create_bp_estimation_model;;
  create_fall_detection_model;;
  create_activity_recognition_model;;
  create_signal_quality_model;;
  create_glucose_prediction_model;;
  print (str_mul "=" 50);;
  print summary_line;;
  print "📁 Models saved in: CoreMLModels/";;
  print (String (Ascii.ascii_of_nat 10) "Next steps:");;
  print "1. Add CoreMLModels folder to Xcode project";;
  print "2. Ensure 'Copy items if needed' is checked";;
  print "3. Models will be compiled automatically by Xcode".

(** The whole file: run as the main program ([is_main]) or imported. *)
Definition script (is_main : bool) : M unit :=
  module_init;;
  if is_main then main_block else ret tt.

(** ** The straight-line reading of the script *)

(** Every function of the script is one fixed sequence of steps, and so is
    the module body.  A step is an entry, a return, or an external call. *)
Inductive Step : Type :=
| SEnter (f : ModelFn)
| SReturn (f : ModelFn)
| SCall (c : LibCall).

Global Instance Step_eq_dec : EqDecision Step.
Proof. solve_decision. Defined.

Definition step (s : Step) : M unit :=
  match s with
  | SEnter f => note (EvEnter f)
  | SReturn f => note (EvReturn f)
  | SCall c => lib c
  end.

Fixpoint exec (l : list Step) : M unit :=
  match l with
  | [] => ret tt
  | s :: l' => step s;; exec l'
  end.

(** The event a step leaves when it does not raise, and the world after it. *)
Definition ok_event (s : Step) : Event :=
  match s with
  | SEnter f => EvEnter f
  | SReturn f => EvReturn f
  | SCall c => EvCall c None
  end.

Definition advance (w : World) (s : Step) : World :=
  record (ok_event s) (match s with SCall c => effect c w | _ => w end).

Definition after (l : list Step) (w : World) : World := fold_left advance l w.

(** The exception a result carries, if any. *)
Definition failure {A} (r : Exn + A) : option Exn :=
  match r with inl e => Some e | inr _ => None end.

(** The two ways a list of steps can run from [w]: every call returns and
    all the steps are taken, or the steps before a call are taken and that
    call raises. *)
Inductive Ran (w : World) : list Step -> option Exn -> World -> Prop :=
| Ran_all l :
    (forall l1 c l2, l = l1 ++ SCall c :: l2 -> outcome (after l1 w) c = None) ->
    Ran w l None (after l w)
| Ran_raise l1 c l2 e :
    outcome (after l1 w) c = Some e ->
    Ran w (l1 ++ SCall c :: l2) (Some e) (record (EvCall c (Some e)) (after l1 w)).

(** What varies between the seven functions. *)
Record Recipe : Type := mkRecipe {
  r_layers : list Layer;
  r_loss : string;
  r_inputs : list TensorType;
  r_outputs : list TensorType;
  r_description : string;
  r_file : string
}.

Definition compiled (r : Recipe) : KerasModel :=
  mkKeras (r_layers r) (Some ("adam", r_loss r)).

(** The model a function returns: converted for iOS 15 and all compute
    units, with the three metadata attributes set. *)
Definition exported (r : Recipe) : MLModel :=
  mkMLModel (compiled r) (r_inputs r) (r_outputs r) iOS15 ALL
            "LifeLens Medical AI" (r_description r) "1.0.0".

Definition saved_at (r : Recipe) : string := "CoreMLModels/" +:+ r_file r.
Definition created_line (r : Recipe) : string := "✅ Created " +:+ r_file r.

(** The common shape of the seven functions. *)
Definition pipeline (f : ModelFn) (r : Recipe) : M MLModel :=
  def_ f (
    model <- keras_Sequential (r_layers r);;
    model <- compile model "adam" (r_loss r);;
    coreml_model <- ct_convert model (r_inputs r) (r_outputs r) iOS15 ALL;;
    let coreml_model := set_author coreml_model "LifeLens Medical AI" in
    let coreml_model := set_short_description coreml_model (r_description r) in
    let coreml_model := set_version coreml_model "1.0.0" in
    save coreml_model (saved_at r);;
    print (created_line r);;
    ret coreml_model).

Definition pipeline_calls (r : Recipe) : list LibCall :=
  [ CSequential (r_layers r);
    CCompile (mkKeras (r_layers r) None) "adam" (r_loss r);
    CConvert (compiled r) (r_inputs r) (r_outputs r) iOS15 ALL;
    CSave (exported r) (saved_at r);
    CPrint (created_line r) ].

Definition pipeline_steps (f : ModelFn) (r : Recipe) : list Step :=
  SEnter f :: map SCall (pipeline_calls r) ++ [SReturn f].

(** The recipe of each function, read off the calls it makes when nothing
    raises. *)
Definition probe (f : ModelFn) : list Event := trace (snd (create f blank)).

End Script.

Definition recipe_of (f : ModelFn) : Recipe :=
  match probe quiet f with
  | [ EvEnter _; EvCall (CSequential layers) _; EvCall (CCompile _ _ loss) _;
      EvCall (CConvert _ inputs outputs _ _) _; EvCall (CSave m _) _;
      EvCall (CPrint _) _; EvReturn _ ] =>
      mkRecipe layers loss inputs outputs (short_description m) (file_name f)
  | _ => mkRecipe [] "" [] [] "" (file_name f)
  end.

(** The module body as one list of steps. *)
Definition init_steps : list Step :=
  map SCall
    [ CImport "coremltools"; CImport "numpy";
      CImport "coremltools.models.neural_network";
      CImport "tensorflow"; CImport "tensorflow.keras"; CImport "os";
      CMakedirs output_dir true ].

Definition header_steps : list Step :=
  map SCall
    [ CPrint "Creating Core ML models for LifeLens...";
      CPrint (str_mul "=" 50) ].

Definition model_steps (order : list ModelFn) : list Step :=
  flat_map (fun f => pipeline_steps f (recipe_of f)) order.

Definition footer_steps : list Step :=
  map SCall
    [ CPrint (str_mul "=" 50);
      CPrint summary_line;
      CPrint "📁 Models saved in: CoreMLModels/";
      CPrint (String (Ascii.ascii_of_nat 10) "Next steps:");
      CPrint "1. Add CoreMLModels folder to Xcode project";
      CPrint "2. Ensure 'Copy items if needed' is checked";
      CPrint "3. Models will be compiled automatically by Xcode" ].

Definition script_steps (is_main : bool) : list Step :=
  init_steps ++
  (if is_main then header_steps ++ model_steps driver_order ++ footer_steps else []).


(** The line a step prints and the path it writes, when it has one. *)
Definition line_of (s : Step) : option string :=
  match s with SCall (CPrint x) => Some x | _ => None end.

Definition target (s : Step) : option string :=
  match s with
  | SCall (CMakedirs p _) => Some p
  | SCall (CSave _ p) => Some p
  | _ => None
  end.

(** What a path holds after a list of steps, from what it held before. *)
Definition node_step (p : string) (n : option Node) (s : Step) : option Node :=
  match s with
  | SCall (CMakedirs q _) =>
      if decide (q = p) then Some (default Dir n) else n
  | SCall (CSave m q) => if decide (q = p) then Some (File m) else n
  | _ => n
  end.
Definition node_after (l : list Step) (p : string) (n : option Node) : option Node :=
  fold_left (node_step p) l n.


(** The part of a list before the first occurrence of [x], and the part
    after it. *)
Fixpoint upto {A} `{EqDecision A} (x : A) (l : list A) : list A :=
  match l with
  | [] => []
  | y :: l' => if decide (y = x) then [] else y :: upto x l'
  end.
Fixpoint past {A} `{EqDecision A} (x : A) (l : list A) : list A :=
  match l with
  | [] => []
  | y :: l' => if decide (y = x) then l' else past x l'
  end.

(** The [save] step of a function, and its [return]. *)
Definition save_step (f : ModelFn) : Step :=
  SCall (CSave (exported (recipe_of f)) (model_path f)).

(** The six imports of the module body. *)
Definition import_steps : list Step :=
  map SCall
    [ CImport "coremltools"; CImport "numpy";
      CImport "coremltools.models.neural_network";
      CImport "tensorflow"; CImport "tensorflow.keras"; CImport "os" ].

(** ** What each function asks for, read off the source *)

(** The layers each function hands to [keras.Sequential] (lines 23-37,
    66-75, 101-110, 136-145, 171-180, 206-213, 239-246). *)
Definition architecture (f : ModelFn) : list Layer :=
  match f with
  | Arrhythmia =>
      [ Input [1000] "ecg_signal"; Reshape [1000; 1];
        Conv1D 64 5 "relu" (Some "same"); MaxPooling1D 2;
        Conv1D 128 5 "relu" (Some "same"); MaxPooling1D 2;
        Conv1D 256 3 "relu" (Some "same"); GlobalMaxPooling1D;
        Dense 128 "relu" None; Dropout 0.5; Dense 64 "relu" None;
        Dense 4 "softmax" (Some "arrhythmia_class") ]
  | Troponin =>
      [ Input [50] "sensor_features"; Dense 256 "relu" None;
        BatchNormalization; Dense 128 "relu" None; Dropout 0.4;
        Dense 64 "relu" None; Dense 32 "relu" None;
        Dense 1 "linear" (Some "troponin_level") ]
  | BloodPressure =>
      [ Input [200] "ppg_ptt_signal"; Reshape [200; 1];
        LSTM 64 (Some true); LSTM 32 None;
        Dense 64 "relu" None; Dense 32 "relu" None;
        Dense 2 "linear" (Some "bp_values") ]
  | FallDetection =>
      [ Input [100; 6] "imu_data"; Conv1D 32 3 "relu" None; MaxPooling1D 2;
        Conv1D 64 3 "relu" None; GlobalMaxPooling1D;
        Dense 32 "relu" None; Dense 2 "softmax" (Some "fall_detection") ]
  | ActivityRecognition =>
      [ Input [150; 3] "activity_data"; Conv1D 32 5 "relu" None;
        MaxPooling1D 2; Conv1D 64 5 "relu" None; Flatten;
        Dense 64 "relu" None; Dense 4 "softmax" (Some "activity_class") ]
  | SignalQuality =>
      [ Input [100] "signal_data"; Dense 64 "relu" None;
        Dense 32 "relu" None; Dense 16 "relu" None;
        Dense 1 "sigmoid" (Some "quality_score") ]
  | Glucose =>
      [ Input [60; 5] "glucose_history"; LSTM 64 (Some true); LSTM 32 None;
        Dense 32 "relu" None; Dense 6 "linear" (Some "glucose_forecast") ]
  end.

(** The loss each function compiles with. *)
Definition loss_of (f : ModelFn) : string :=
  match f with
  | Arrhythmia | FallDetection | ActivityRecognition => "categorical_crossentropy"
  | Troponin | BloodPressure | Glucose => "mse"
  | SignalQuality => "binary_crossentropy"
  end.

(** The input and the output tensor each function declares to [ct.convert]. *)
Definition input_tensor (f : ModelFn) : TensorType :=
  match f with
  | Arrhythmia => mkTensorType (Some [1; 1000]) "ecg_signal"
  | Troponin => mkTensorType (Some [1; 50]) "sensor_features"
  | BloodPressure => mkTensorType (Some [1; 200]) "ppg_ptt_signal"
  | FallDetection => mkTensorType (Some [1; 100; 6]) "imu_data"
  | ActivityRecognition => mkTensorType (Some [1; 150; 3]) "activity_data"
  | SignalQuality => mkTensorType (Some [1; 100]) "signal_data"
  | Glucose => mkTensorType (Some [1; 60; 5]) "glucose_history"
  end.
Definition output_tensor (f : ModelFn) : TensorType :=
  match f with
  | Arrhythmia => mkTensorType None "arrhythmia_probability"
  | Troponin => mkTensorType None "troponin_ng_per_L"
  | BloodPressure => mkTensorType None "blood_pressure"
  | FallDetection => mkTensorType None "fall_probability"
  | ActivityRecognition => mkTensorType None "activity_probability"
  | SignalQuality => mkTensorType None "signal_quality"
  | Glucose => mkTensorType None "glucose_predictions"
  end.

(** The short description each function gives its converted model. *)
Definition description (f : ModelFn) : string :=
  match f with
  | Arrhythmia => "ECG Arrhythmia Detection (AFib, VTach, PVCs)"
  | Troponin => "Troponin Level Detection (38ng/L sensitivity)"
  | BloodPressure => "Blood Pressure Estimation (±5 mmHg accuracy)"
  | FallDetection => "Emergency Fall Detection"
  | ActivityRecognition => "Activity Recognition (Exercise/Sleep/Stress)"
  | SignalQuality => "Signal Quality Assessment"
  | Glucose => "Glucose Prediction (30-min forecast)"
  end.

(** ** The weights are the library's *)




(** Whether a node of the file system is a directory. *)
Definition is_dir (n : Node) : bool :=
  match n with Dir => true | File _ => false end.

(** * Properties *)

Section Properties.

Variable oracle : World -> LibCall -> option Exn.

Lemma create_pipeline (f : ModelFn) :
  create oracle f = pipeline oracle f (recipe_of f).
Proof. destruct f; reflexivity. Qed.

(** ** Runs of a list of steps *)


Lemma trace_after l : forall w, trace (after l w) = trace w ++ map ok_event l.
Proof.
  induction l as [|s l IH]; intros w; simpl.
  - by rewrite app_nil_r.
  - unfold after in IH. rewrite IH. simpl.
    destruct s as [f|f|c]; simpl; try by rewrite <- app_assoc.
    rewrite <- app_assoc. f_equal.
    destruct c; simpl; try reflexivity. by destruct (fs w !! path).
Qed.

Lemma stdout_after l : forall w, stdout (after l w) = stdout w ++ omap line_of l.
Proof.
  induction l as [|s l IH]; intros w; simpl.
  - by rewrite app_nil_r.
  - unfold after in IH. rewrite IH.
    destruct s as [f|f|c]; simpl; try reflexivity.
    destruct c; simpl; try reflexivity.
    + by destruct (fs w !! path).
    + by rewrite <- app_assoc.
Qed.

Lemma fs_advance_frame s w p :
  target s <> Some p -> fs (advance w s) !! p = fs w !! p.
Proof.
  destruct s as [f|f|c]; simpl; try reflexivity.
  destruct c; simpl; intros Hp; try reflexivity.
  - destruct (fs w !! path) eqn:E; simpl; [reflexivity|].
    apply lookup_insert_ne. congruence.
  - apply lookup_insert_ne. congruence.
Qed.

Lemma fs_after_frame l p : forall w,
  (forall s, s ∈ l -> target s <> Some p) -> fs (after l w) !! p = fs w !! p.
Proof.
  induction l as [|s l IH]; intros w Hl; simpl; [reflexivity|].
  unfold after in IH. rewrite IH.
  - apply fs_advance_frame, Hl. by left.
  - intros s' Hs'. apply Hl. by right.
Qed.

(** A run of a list of steps either goes through all of them, or stops at
    the first call that raises, with that exception. *)
Lemma exec_ran l : forall w r w',
  exec oracle l w = (r, w') -> Ran oracle w l (failure r) w'.
Proof.
  induction l as [|s l IH]; intros w r w' H.
  - inversion H; subst. apply (Ran_all oracle _ []).
    intros [|] ? ? ?; discriminate.
  - simpl in H. unfold bind in H.
    assert (Hnext : (forall c, s = SCall c -> outcome oracle w c = None) ->
                    exec oracle l (advance w s) = (r, w') ->
                    Ran oracle w (s :: l) (failure r) w').
    { intros Hs H'. apply IH in H'.
      inversion H' as [l0 Hall E1 E2 E3|l1 c l2 e Ho E1 E2 E3].
      - apply (Ran_all oracle w (s :: l)).
        intros [|s' l1] c l2 Heq; simplify_eq/=; [by apply Hs|by eapply Hall].
      - apply (Ran_raise oracle w (s :: l1) c l2 e Ho). }
    destruct s as [f|f|c]; simpl in H; try (apply Hnext; [discriminate|done]).
    unfold lib in H. destruct (outcome oracle w c) as [e|] eqn:Ho.
    + inversion H; subst. apply (Ran_raise oracle w [] c l e Ho).
    + apply Hnext; [congruence|done].
Qed.

(** ** The script is its list of steps *)

Lemma bind_ext {A B} (m : M A) (k k' : A -> M B) w :
  (forall a w1, k a w1 = k' a w1) -> bind m k w = bind m k' w.
Proof. intros Hk. unfold bind. destruct (m w) as [[e|a] w1]; [reflexivity|apply Hk]. Qed.

Lemma exec_app l1 l2 : forall w,
  exec oracle (l1 ++ l2) w = (exec oracle l1;; exec oracle l2) w.
Proof.
  induction l1 as [|s l1 IH]; intros w; simpl; [reflexivity|].
  unfold bind.
  destruct (step oracle s w) as [[e|[]] w1]; [reflexivity|].
  rewrite IH. reflexivity.
Qed.

Lemma pipeline_exec f r w :
  pipeline oracle f r w =
  (exec oracle (pipeline_steps f r);; ret (exported r)) w.
Proof.
  unfold pipeline, def_, keras_Sequential, compile, ct_convert, save, print,
    pipeline_steps, pipeline_calls.
  unfold exported, compiled, set_author, set_short_description, set_version.
  cbn [map app exec step]. unfold bind, note, ret, lib. simpl.
  repeat match goal with
         | |- ?lhs = _ =>
             match lhs with
             | context [oracle ?w0 ?c] => destruct (oracle w0 c); simpl
             end
         end;
  reflexivity.
Qed.

Lemma seq_call c (rest : M unit) L :
  (forall w, rest w = exec oracle L w) ->
  forall w, (lib oracle c;; rest) w = exec oracle (SCall c :: L) w.
Proof. intros H w. simpl. apply bind_ext. intros _ w1. apply H. Qed.

Lemma seq_create f (rest : M unit) L :
  (forall w, rest w = exec oracle L w) ->
  forall w, (create oracle f;; rest) w =
            exec oracle (pipeline_steps f (recipe_of f) ++ L) w.
Proof.
  intros H w. rewrite exec_app, create_pipeline.
  unfold bind at 1. rewrite pipeline_exec. unfold bind.
  destruct (exec oracle (pipeline_steps f (recipe_of f)) w) as [[e|[]] w1];
    [reflexivity|apply H].
Qed.

Lemma last_call c w : lib oracle c w = exec oracle [SCall c] w.
Proof.
  simpl. unfold bind. destruct (lib oracle c w) as [[e|[]] w1]; reflexivity.
Qed.

Lemma module_init_exec w : module_init oracle w = exec oracle init_steps w.
Proof.
  unfold module_init, import_, os_makedirs, init_steps. cbn [map].
  repeat (apply seq_call; intros ?). apply last_call.
Qed.

Lemma main_block_exec w :
  main_block oracle w =
  exec oracle (header_steps ++ model_steps driver_order ++ footer_steps) w.
Proof.
  unfold main_block, print, header_steps, footer_steps, model_steps, driver_order.
  cbn [map flat_map]. rewrite !app_nil_r, <- !app_assoc. cbn [app].
  do 2 (apply seq_call; intros ?).
  change (create_arrhythmia_detection_model oracle) with (create oracle Arrhythmia).
  change (create_troponin_detection_model oracle) with (create oracle Troponin).
  change (create_bp_estimation_model oracle) with (create oracle BloodPressure).
  change (create_fall_detection_model oracle) with (create oracle FallDetection).
  change (create_activity_recognition_model oracle)
    with (create oracle ActivityRecognition).
  change (create_signal_quality_model oracle) with (create oracle SignalQuality).
  change (create_glucose_prediction_model oracle) with (create oracle Glucose).
  do 7 (apply seq_create; intros ?).
  repeat (apply seq_call; intros ?). apply last_call.
Qed.

Lemma script_exec b w : script oracle b w = exec oracle (script_steps b) w.
Proof.
  unfold script, script_steps. rewrite exec_app. unfold bind.
  rewrite module_init_exec.
  destruct (exec oracle init_steps w) as [[e|[]] w1]; [reflexivity|].
  destruct b; [apply main_block_exec|reflexivity].
Qed.

Lemma since_app w w' d : trace w' = trace w ++ d -> since w w' = d.
Proof. intros H. unfold since. rewrite H. apply drop_app_length. Qed.

Lemma since_after l w : since w (after l w) = map ok_event l.
Proof. apply since_app, trace_after. Qed.

Lemma printed_since_after l w : printed_since w (after l w) = omap line_of l.
Proof. unfold printed_since. rewrite stdout_after. apply drop_app_length. Qed.

Lemma saved_at_recipe f : saved_at (recipe_of f) = model_path f.
Proof. destruct f; reflexivity. Qed.

Lemma r_file_recipe f : r_file (recipe_of f) = file_name f.
Proof. destruct f; reflexivity. Qed.

(** A call of one of the seven functions runs its seven steps, and what it
    returns is the exported model; the script runs its steps. *)
Lemma create_ran f w r w' :
  create oracle f w = (r, w') ->
  Ran oracle w (pipeline_steps f (recipe_of f)) (failure r) w' /\
  (forall m, r = inr m -> m = exported (recipe_of f)).
Proof.
  rewrite create_pipeline, pipeline_exec. unfold bind.
  destruct (exec oracle (pipeline_steps f (recipe_of f)) w) as [[e|[]] w1] eqn:E;
    apply exec_ran in E; intros H; inversion H; subst; (split; [exact E|]);
    intros m Hm; by inversion Hm.
Qed.

Lemma script_ran b w r w' :
  script oracle b w = (r, w') -> Ran oracle w (script_steps b) (failure r) w'.
Proof. rewrite script_exec. apply exec_ran. Qed.

(** ** What a successful call does *)

Lemma recipe_of_source f :
  recipe_of f = mkRecipe (architecture f) (loss_of f) [input_tensor f]
                         [output_tensor f] (description f) (file_name f).
Proof. destruct f; reflexivity. Qed.

(** C1: a call of any of the seven functions that returns has built the
    network of that function from its layers, compiled it with [adam] and
    its loss, converted the compiled network, set the author, the short
    description of that function and the version on the converted model,
    saved that model to its one file, and returned it.  The history of the
    call is exactly these calls in this order, with the layers, loss,
    tensors and path the source gives; the model returned is the one saved
    and carries the three metadata strings of the source; the file system
    differs from the one before the call by that file. *)
Theorem create_builds_compiles_converts_saves (f : ModelFn) (w w' : World) (m : MLModel) :
  create oracle f w = (inr m, w') ->
  since w w' =
    [ EvEnter f;
      EvCall (CSequential (architecture f)) None;
      EvCall (CCompile (mkKeras (architecture f) None) "adam" (loss_of f)) None;
      EvCall (CConvert (mkKeras (architecture f) (Some ("adam", loss_of f)))
                       [input_tensor f] [output_tensor f] iOS15 ALL) None;
      EvCall (CSave m ("CoreMLModels/" +:+ file_name f)) None;
      EvCall (CPrint ("✅ Created " +:+ file_name f)) None;
      EvReturn f ] /\
  m = mkMLModel (mkKeras (architecture f) (Some ("adam", loss_of f)))
                [input_tensor f] [output_tensor f] iOS15 ALL
                "LifeLens Medical AI" (description f) "1.0.0" /\
  architecture f <> [] /\
  author m = "LifeLens Medical AI" /\
  short_description m = description f /\ description f <> "" /\
  version m = "1.0.0" /\
  saves (since w w') = [("CoreMLModels/" +:+ file_name f, m)] /\
  fs w' = <["CoreMLModels/" +:+ file_name f := File m]> (fs w).
Proof.
  intros H.
  destruct (create_ran _ _ _ _ H) as [HR Hm]. specialize (Hm m eq_refl) as ->.
  inversion HR; subst. rewrite since_after.
  unfold pipeline_steps, pipeline_calls, exported, compiled, saved_at, created_line.
  rewrite recipe_of_source. simpl.
  repeat split; by destruct f.
Qed.

(** ** Shape of every run *)

(** Whatever the oracle, a run has taken a prefix [l1] of its steps, all of
    them returning, and the history it added is theirs, followed by the
    raising call when there is one. *)
Lemma ran_shape w l o w' :
  Ran oracle w l o w' ->
  exists l1 l2 tail,
    l = l1 ++ l2 /\
    fs w' = fs (after l1 w) /\ stdout w' = stdout (after l1 w) /\
    since w w' = map ok_event l1 ++ tail /\
    ((o = None /\ l2 = [] /\ tail = []) \/
     (exists c e l3, o = Some e /\ l2 = SCall c :: l3 /\
                     tail = [EvCall c (Some e)])).
Proof.
  intros [l0 Hall|l1 c l2 e Ho].
  - exists l0, [], []. rewrite !app_nil_r, since_after. repeat split. by left.
  - exists l1, (SCall c :: l2), [EvCall c (Some e)]. repeat split.
    + apply since_app. simpl. by rewrite trace_after, app_assoc.
    + right. by exists c, e, l2.
Qed.

Lemma ok_event_not_raise l c e : EvCall c (Some e) ∉ map ok_event l.
Proof.
  intros H. apply list_elem_of_fmap in H as (s & Hs & _).
  by destruct s.
Qed.

Lemma invoked_tail l tail :
  (tail = [] \/ exists c o, tail = [EvCall c o]) ->
  invoked (map ok_event l ++ tail) = invoked (map ok_event l).
Proof.
  intros H. unfold invoked. rewrite omap_app.
  destruct H as [->|(c & o & ->)]; simpl; by rewrite app_nil_r.
Qed.

(** ** The main block *)

(** C2: run as the main program, the script enters the seven functions in
    the order arrhythmia, troponin, blood pressure, fall detection, activity
    recognition, signal quality, glucose.  In every run the functions
    entered are an initial part of that list, so none is entered twice or
    out of turn; in a run in which no call raises they are the whole list,
    each call returning before the next function is entered. *)
Theorem main_invokes_each_once_in_order (w w' : World) (r : Exn + unit) :
  script oracle true w = (r, w') ->
  invoked (since w w') `prefix_of`
    [Arrhythmia; Troponin; BloodPressure; FallDetection;
     ActivityRecognition; SignalQuality; Glucose] /\
  ((forall c e, EvCall c (Some e) ∉ since w w') ->
   invoked (since w w') =
     [Arrhythmia; Troponin; BloodPressure; FallDetection;
      ActivityRecognition; SignalQuality; Glucose] /\
   frames (since w w') =
     flat_map (fun f => [EvEnter f; EvReturn f])
       [Arrhythmia; Troponin; BloodPressure; FallDetection;
        ActivityRecognition; SignalQuality; Glucose]).
Proof.
  intros H. apply script_ran, ran_shape in H
    as (l1 & l2 & tail & Hl & _ & _ & Hs & Ht).
  assert (Hall : invoked (map ok_event (script_steps true)) = driver_order)
    by reflexivity.
  split.
  - rewrite Hs, invoked_tail.
    + exists (invoked (map ok_event l2)).
      change [Arrhythmia; Troponin; BloodPressure; FallDetection;
              ActivityRecognition; SignalQuality; Glucose] with driver_order.
      rewrite <- Hall, Hl, map_app. apply omap_app.
    + destruct Ht as [(_ & _ & ->)|(c & e & l3 & _ & _ & ->)]; eauto.
  - intros Hno.
    destruct Ht as [(_ & -> & ->)|(c & e & l3 & _ & _ & ->)].
    + rewrite app_nil_r in Hl, Hs. subst l1. rewrite Hs. by split.
    + exfalso. apply (Hno c e). rewrite Hs. set_solver.
Qed.

(** ** Exceptions *)

Lemma snoc_split_last {A} (xs : list A) y pre z post :
  z ∉ xs -> xs ++ [y] = pre ++ z :: post -> post = [] /\ z = y.
Proof.
  intros Hz. destruct post as [|q post _] using rev_ind; intros Heq.
  - apply app_inj_tail in Heq as [_ ->]. done.
  - exfalso. apply Hz.
    change (pre ++ z :: post ++ [q]) with (pre ++ (z :: post) ++ [q]) in Heq.
    rewrite app_assoc in Heq. apply app_inj_tail in Heq as [-> _].
    set_solver.
Qed.

Lemma failure_inl {A} (r : Exn + A) e : failure r = Some e -> r = inl e.
Proof. destruct r; simpl; congruence. Qed.

(** In the history of a run a call that raised is the last event, and its
    exception is the outcome of the run. *)
Lemma ran_raise_last w l o w' pre c e post :
  Ran oracle w l o w' ->
  since w w' = pre ++ EvCall c (Some e) :: post ->
  o = Some e /\ post = [].
Proof.
  intros HR Hs. apply ran_shape in HR as (l1 & l2 & tail & _ & _ & _ & Hs' & Ht).
  rewrite Hs' in Hs.
  destruct Ht as [(_ & _ & ->)|(c0 & e0 & l3 & -> & _ & ->)].
  - exfalso. apply (ok_event_not_raise l1 c e).
    rewrite app_nil_r in Hs. rewrite Hs. set_solver.
  - apply snoc_split_last in Hs as [-> Heq]; [|apply ok_event_not_raise].
    by inversion Heq.
Qed.

(** C3: nothing in the script catches an exception.  When a call made by
    one of the seven functions raises, the function stops there and ends
    with that same exception; when a call made anywhere in a run of the
    script raises, in the module body or inside a function, the run stops
    there and ends with that same exception. *)
Theorem exceptions_propagate_unchanged :
  (forall f w r w' pre c e post,
      create oracle f w = (r, w') ->
      since w w' = pre ++ EvCall c (Some e) :: post ->
      r = inl e /\ post = []) /\
  (forall is_main w r w' pre c e post,
      script oracle is_main w = (r, w') ->
      since w w' = pre ++ EvCall c (Some e) :: post ->
      r = inl e /\ post = []).
Proof.
  split.
  - intros f w r w' pre c e post H Hs. apply create_ran in H as [HR _].
    destruct (ran_raise_last _ _ _ _ _ _ _ _ HR Hs) as [Hf ->].
    split; [by apply failure_inl|done].
  - intros b w r w' pre c e post H Hs. apply script_ran in H.
    destruct (ran_raise_last _ _ _ _ _ _ _ _ H Hs) as [Hf ->].
    split; [by apply failure_inl|done].
Qed.

(** ** The file system *)

Lemma fs_advance_node s w p :
  fs (advance w s) !! p = node_step p (fs w !! p) s.
Proof.
  destruct s as [f|f|c]; simpl; try reflexivity.
  destruct c; simpl; try reflexivity.
  - destruct (fs w !! path) as [n|] eqn:E; simpl.
    + case_decide; subst; by rewrite ?E.
    + rewrite lookup_insert. case_decide; subst; by rewrite ?E.
  - rewrite lookup_insert. by case_decide.
Qed.

Lemma fs_after_node l p : forall w,
  fs (after l w) !! p = node_after l p (fs w !! p).
Proof.
  induction l as [|s l IH]; intros w; simpl; [reflexivity|].
  unfold after in IH. rewrite IH. unfold node_after. f_equal.
  apply fs_advance_node.
Qed.

Lemma script_targets b s p :
  s ∈ script_steps b -> target s = Some p -> p ∈ output_paths.
Proof.
  assert (H : forallb (fun s => match target s with
                               | Some q => bool_decide (q ∈ output_paths)
                               | None => true
                               end) (script_steps b) = true)
    by (destruct b; vm_compute; reflexivity).
  rewrite forallb_forall in H. intros Hs Hp.
  apply list_elem_of_In, H in Hs. rewrite Hp in Hs.
  by apply bool_decide_eq_true in Hs.
Qed.

Lemma pipeline_targets f s p :
  s ∈ pipeline_steps f (recipe_of f) -> target s = Some p -> p = model_path f.
Proof.
  rewrite <- saved_at_recipe. unfold pipeline_steps, pipeline_calls. simpl.
  rewrite !elem_of_cons, elem_of_nil.
  intros [->|[->|[->|[->|[->|[->|[->|[]]]]]]]]; simpl; congruence.
Qed.

Lemma ran_frame w l o w' p :
  Ran oracle w l o w' ->
  (forall s, s ∈ l -> target s <> Some p) ->
  fs w' !! p = fs w !! p.
Proof.
  intros HR Hl. apply ran_shape in HR as (l1 & l2 & tail & -> & -> & _).
  apply fs_after_frame. intros s Hs. apply Hl. set_solver.
Qed.

Lemma output_paths_spec p :
  p ∈ output_paths <->
  p = "CoreMLModels" \/ exists f, p = "CoreMLModels/" +:+ file_name f.
Proof.
  unfold output_paths, driver_order. simpl. rewrite !elem_of_cons, elem_of_nil.
  split.
  - intros [->|[->|[->|[->|[->|[->|[->|[->|[]]]]]]]]]; [by left|right..];
      [by exists Arrhythmia|by exists Troponin|by exists BloodPressure
      |by exists FallDetection|by exists ActivityRecognition
      |by exists SignalQuality|by exists Glucose].
  - intros [->|[[] ->]]; tauto.
Qed.

(** C4: the only paths a run of the script can change are the directory
    [CoreMLModels] and the seven model files in it, and one call of a
    function can change only its own model file; every other path holds
    after the run what it held before.  When the run ends normally the
    directory exists, and run as the main program it has written the seven
    files. *)
Theorem only_output_dir_is_written :
  (forall is_main w r w',
      script oracle is_main w = (r, w') ->
      (forall p, p <> "CoreMLModels" ->
                 (forall f, p <> "CoreMLModels/" +:+ file_name f) ->
                 fs w' !! p = fs w !! p) /\
      (r = inr tt -> fs w' !! "CoreMLModels" = Some Dir) /\
      (r = inr tt -> is_main = true ->
       forall f, fs w' !! ("CoreMLModels/" +:+ file_name f)
                 = Some (File (exported (recipe_of f))))) /\
  (forall f w r w' p,
      create oracle f w = (r, w') ->
      p <> "CoreMLModels/" +:+ file_name f ->
      fs w' !! p = fs w !! p).
Proof.
  split.
  - intros b w r w' H. apply script_ran in H. split; [|split].
    + intros p Hdir Hfile. apply (ran_frame _ _ _ _ _ H).
      intros s Hs Ht. apply (script_targets _ _ _ Hs), output_paths_spec in Ht.
      destruct Ht as [->|[f ->]]; [done|by apply (Hfile f)].
    + intros ->. inversion H as [l0 Hall E1 E2 E3|]; subst.
      rewrite fs_after_node.
      pose proof (Hall (map SCall [CImport "coremltools"; CImport "numpy";
                          CImport "coremltools.models.neural_network";
                          CImport "tensorflow"; CImport "tensorflow.keras";
                          CImport "os"])
                       (CMakedirs output_dir true)
                       (if b then header_steps ++ model_steps driver_order
                                  ++ footer_steps else [])
                       eq_refl) as Hmk.
      simpl in Hmk. change "CoreMLModels" with output_dir.
      destruct (fs w !! output_dir) as [[|m]|]; [..|clear Hmk];
        try discriminate; by destruct b.
    + intros -> ->. inversion H as [l0 Hall E1 E2 E3|]; subst.
      intros f. rewrite fs_after_node. by destruct f; vm_compute.
  - intros f w r w' p H Hp. apply create_ran in H as [HR _].
    apply (ran_frame _ _ _ _ _ HR). intros s Hs Ht.
    apply (pipeline_targets _ _ _ Hs) in Ht. by subst.
Qed.

(** ** Independence of the seven functions *)



Lemma node_after_app l1 l2 p n :
  node_after (l1 ++ l2) p n = node_after l2 p (node_after l1 p n).
Proof. apply fold_left_app. Qed.

Lemma node_after_pipeline f p n :
  node_after (pipeline_steps f (recipe_of f)) p n =
  if decide (model_path f = p) then Some (File (exported (recipe_of f))) else n.
Proof. rewrite <- saved_at_recipe. reflexivity. Qed.





(** ** Termination *)

Lemma calls_steps_app l1 l2 :
  length (calls (map ok_event (l1 ++ l2))) =
  (length (calls (map ok_event l1)) + length (calls (map ok_event l2)))%nat.
Proof. unfold calls. by rewrite map_app, omap_app, length_app. Qed.

Lemma script_call_count b :
  length (calls (map ok_event (script_steps b))) = if b then 51%nat else 7%nat.
Proof. by destruct b. Qed.

Lemma script_event_count b :
  length (script_steps b) = if b then 65%nat else 7%nat.
Proof. by destruct b. Qed.

Lemma script_invoked b :
  invoked (map ok_event (script_steps b)) = if b then driver_order else [].
Proof. by destruct b. Qed.

(** C6: every run of the script ends, after one pass over its statements.
    Whatever the external calls do, a run makes at most 51 of them and
    leaves at most 65 events, and enters no function twice; when every call
    returns without raising, the run ends normally after exactly the 51
    calls of the main program, or the 7 of an import. *)
Theorem script_runs_once_to_completion (is_main : bool) (w : World) :
  exists r w',
    script oracle is_main w = (r, w') /\
    (length (calls (since w w')) <= 51)%nat /\
    (length (since w w') <= 65)%nat /\
    NoDup (invoked (since w w')) /\
    ((forall c e, EvCall c (Some e) ∉ since w w') ->
     r = inr tt /\
     length (calls (since w w')) = if is_main then 51%nat else 7%nat).
Proof.
  destruct (script oracle is_main w) as [r w'] eqn:H. exists r, w'.
  split; [reflexivity|].
  apply script_ran, ran_shape in H as (l1 & l2 & tail & Hl & _ & _ & Hs & Ht).
  pose proof (script_call_count is_main) as Hc.
  pose proof (script_event_count is_main) as He.
  pose proof (script_invoked is_main) as Hi.
  rewrite Hl in Hc, He, Hi. rewrite calls_steps_app in Hc.
  rewrite length_app in He. rewrite map_app in Hi.
  unfold invoked in Hi. rewrite omap_app in Hi. fold (invoked (map ok_event l1)) in Hi.
  assert (Hnd : NoDup (invoked (since w w'))).
  { rewrite Hs, invoked_tail.
    - assert (Hd : NoDup (if is_main then driver_order else []))
        by (destruct is_main; [by apply (bool_decide_unpack _)|constructor]).
      rewrite <- Hi in Hd. by apply NoDup_app in Hd as [? _].
    - destruct Ht as [(_ & _ & ->)|(c & e & l3 & _ & _ & ->)]; eauto. }
  rewrite Hs. unfold calls. rewrite omap_app, !length_app, length_map.
  fold (calls (map ok_event l1)).
  destruct Ht as [(Hr & -> & ->)|(c & e & l3 & Hr & -> & ->)]; simpl in *.
  - split; [destruct is_main; lia|]. split; [destruct is_main; lia|].
    split; [by rewrite Hs in Hnd|]. intros _.
    split; [by destruct r as [e|[]]|destruct is_main; lia].
  - split; [destruct is_main; lia|]. split; [destruct is_main; lia|].
    split; [by rewrite Hs in Hnd|]. intros Hno.
    exfalso. apply (Hno c e). set_solver.
Qed.

(** ** What a call puts out *)

(** C7, as the code has it: a call of any of the seven functions that
    returns has saved exactly one file, named [*.mlmodel], through
    [MLModel.save], and has printed exactly one line, the confirmation
    [Created <file>], to standard output; it has written no other file and
    printed nothing else. *)
Theorem create_saves_one_mlmodel_and_prints (f : ModelFn) (w w' : World) (m : MLModel) :
  create oracle f w = (inr m, w') ->
  saves (since w w') = [("CoreMLModels/" +:+ file_name f, m)] /\
  (exists stem, file_name f = stem +:+ ".mlmodel") /\
  fs w' = <["CoreMLModels/" +:+ file_name f := File m]> (fs w) /\
  printed_since w w' = ["✅ Created " +:+ file_name f].
Proof.
  intros H. apply create_ran in H as [HR Hm]. specialize (Hm m eq_refl) as ->.
  inversion HR; subst.
  rewrite since_after, printed_since_after.
  unfold pipeline_steps, pipeline_calls, created_line.
  rewrite saved_at_recipe, r_file_recipe.
  repeat split.
  destruct f;
    [ by exists "ECG_Arrhythmia" | by exists "Troponin_Detection"
    | by exists "BP_Estimation" | by exists "Fall_Detection"
    | by exists "Activity_Recognition" | by exists "Signal_Quality"
    | by exists "Glucose_Prediction" ].
Qed.

(** ** Deployment options and metadata *)

Lemma ran_calls w l o w' c oc :
  Ran oracle w l o w' -> EvCall c oc ∈ since w w' -> SCall c ∈ l.
Proof.
  intros HR Hin. apply ran_shape in HR as (l1 & l2 & tail & -> & _ & _ & Hs & Ht).
  rewrite Hs in Hin. apply elem_of_app in Hin as [Hin|Hin].
  - apply list_elem_of_fmap in Hin as (s & Hs' & Hin).
    destruct s as [f|f|c0]; try discriminate.
    injection Hs' as -> _. apply elem_of_app. by left.
  - destruct Ht as [(_ & _ & ->)|(c0 & e & l3 & _ & -> & ->)].
    + by apply elem_of_nil in Hin.
    + apply list_elem_of_singleton in Hin. injection Hin as -> _.
      apply elem_of_app. right. by left.
Qed.

(** C8: in every call of any of the seven functions, returning or not, every
    conversion is asked for iOS 15 and all compute units, and every model
    handed to [save] carries the author [LifeLens Medical AI] and the
    version [1.0.0]; so does the model a returning call leaves on disk and
    returns. *)
Theorem models_configured_identically (f : ModelFn) (w w' : World) (r : Exn + MLModel) :
  create oracle f w = (r, w') ->
  (forall km ins outs tgt cu o,
      EvCall (CConvert km ins outs tgt cu) o ∈ since w w' ->
      tgt = iOS15 /\ cu = ALL) /\
  (forall m p o,
      EvCall (CSave m p) o ∈ since w w' ->
      author m = "LifeLens Medical AI" /\ version m = "1.0.0" /\
      ml_target m = iOS15 /\ ml_compute_units m = ALL) /\
  (forall m,
      r = inr m ->
      author m = "LifeLens Medical AI" /\ version m = "1.0.0" /\
      ml_target m = iOS15 /\ ml_compute_units m = ALL /\
      fs w' !! ("CoreMLModels/" +:+ file_name f) = Some (File m)).
Proof.
  intros H. pose proof (create_ran _ _ _ _ H) as [HR Hm].
  split; [|split].
  - intros km ins outs tgt cu o Hin. apply (ran_calls _ _ _ _ _ _ HR) in Hin.
    unfold pipeline_steps, pipeline_calls in Hin. simpl in Hin.
    rewrite !elem_of_cons, elem_of_nil in Hin.
    destruct Hin as [?|[?|[?|[?|[?|[?|[?|[]]]]]]]]; simplify_eq. done.
  - intros m p o Hin. apply (ran_calls _ _ _ _ _ _ HR) in Hin.
    unfold pipeline_steps, pipeline_calls in Hin. simpl in Hin.
    rewrite !elem_of_cons, elem_of_nil in Hin.
    destruct Hin as [?|[?|[?|[?|[?|[?|[?|[]]]]]]]]; simplify_eq. done.
  - intros m ->. specialize (Hm m eq_refl) as ->. inversion HR; subst.
    repeat split. rewrite fs_after_node, <- r_file_recipe.
    change (node_after (pipeline_steps f (recipe_of f))
              (saved_at (recipe_of f)) (fs w !! saved_at (recipe_of f))
            = Some (File (exported (recipe_of f)))).
    rewrite saved_at_recipe, node_after_pipeline. by case_decide.
Qed.

(** ** The output directory *)

Lemma node_after_dir l p :
  (forall s, s ∈ l -> forall m, s <> SCall (CSave m p)) ->
  node_after l p (Some Dir) = Some Dir.
Proof.
  induction l as [|s l IH]; intros Hl; simpl; [reflexivity|].
  assert (Hs : node_step p (Some Dir) s = Some Dir).
  { destruct s as [f|f|c]; try reflexivity.
    destruct c; simpl; try reflexivity; case_decide; subst; try reflexivity.
    exfalso. eapply Hl; [by left|reflexivity]. }
  unfold node_after in IH |- *. simpl. rewrite Hs. apply IH.
  intros s' Hs'. apply Hl. by right.
Qed.

Lemma script_never_saves_over_dir b s m :
  s ∈ script_steps b -> s <> SCall (CSave m output_dir).
Proof.
  assert (H : forallb (fun s => match s with
                               | SCall (CSave _ q) => negb (bool_decide (q = output_dir))
                               | _ => true
                               end) (script_steps b) = true)
    by (destruct b; vm_compute; reflexivity).
  rewrite forallb_forall in H. intros Hs ->.
  apply list_elem_of_In, H in Hs. by vm_compute in Hs.
Qed.

Lemma script_makedirs b p ok :
  SCall (CMakedirs p ok) ∈ script_steps b -> p = output_dir /\ ok = true.
Proof.
  assert (H : forallb (fun s => match s with
                               | SCall (CMakedirs q ok) =>
                                   bool_decide (q = output_dir) && ok
                               | _ => true
                               end) (script_steps b) = true)
    by (destruct b; vm_compute; reflexivity).
  rewrite forallb_forall in H. intros Hs.
  apply list_elem_of_In, H, andb_true_iff in Hs as [Hp Hok].
  by apply bool_decide_eq_true in Hp.
Qed.

(** ** The summary line *)

Lemma first_occurrence_unique {A} (x : A) (a a' t t' : list A) :
  x ∉ a -> x ∉ a' -> a ++ x :: t = a' ++ x :: t' -> a = a'.
Proof.
  revert a'. induction a as [|y a IH]; intros [|y' a'] Ha Ha' Heq;
    simplify_eq/=; try reflexivity.
  - exfalso. apply Ha'. by left.
  - exfalso. apply Ha. by left.
  - f_equal. apply IH; [set_solver|set_solver|done].
Qed.

Lemma ran_printed w l o w' :
  Ran oracle w l o w' ->
  exists l1 l2 tail,
    l = l1 ++ l2 /\ printed_since w w' = omap line_of l1 /\
    since w w' = map ok_event l1 ++ tail.
Proof.
  intros HR. apply ran_shape in HR as (l1 & l2 & tail & Hl & _ & Ho & Hs & _).
  exists l1, l2, tail. repeat split; [done| |done].
  unfold printed_since. rewrite Ho, stdout_after. apply drop_app_length.
Qed.

(** C10: the line [All Core ML models created successfully!] is printed only
    by the main program and only after the seven functions have all
    returned: in the history of a run that printed it, before that print,
    every function has returned and has saved its model, and no call has
    raised.  A run in which a function is entered and does not return never
    prints it. *)
Theorem summary_only_after_all_models (is_main : bool) (w w' : World) (r : Exn + unit) :
  script oracle is_main w = (r, w') ->
  ("✅ All Core ML models created successfully!" ∈ printed_since w w' ->
   is_main = true /\
   exists pre post,
     since w w' =
       pre ++ EvCall (CPrint "✅ All Core ML models created successfully!") None :: post /\
     (forall f, EvReturn f ∈ pre /\
                EvCall (CSave (exported (recipe_of f))
                              ("CoreMLModels/" +:+ file_name f)) None ∈ pre) /\
     (forall c e, EvCall c (Some e) ∉ pre)) /\
  ((exists f, EvEnter f ∈ since w w' /\ EvReturn f ∉ since w w') ->
   "✅ All Core ML models created successfully!" ∉ printed_since w w').
Proof.
  intros H. apply script_ran, ran_printed in H as (l1 & l2 & tail & Hl & Hp & Hs).
  set (x := SCall (CPrint summary_line)).
  assert (Hfirst : "✅ All Core ML models created successfully!" ∈ printed_since w w' ->
     is_main = true /\
     exists pre post,
       since w w' = pre ++ EvCall (CPrint summary_line) None :: post /\
       (forall f, EvReturn f ∈ pre /\
                  EvCall (CSave (exported (recipe_of f))
                                ("CoreMLModels/" +:+ file_name f)) None ∈ pre) /\
       (forall c e, EvCall c (Some e) ∉ pre)).
  { rewrite Hp. intros Hin. apply list_elem_of_omap in Hin as (s & Hin & Hline).
    assert (s = x) as ->.
    { destruct s as [| |c]; try discriminate. destruct c; try discriminate.
      simpl in Hline. by injection Hline as ->. }
    apply list_elem_of_split_l in Hin as (a & bb & -> & Ha).
    rewrite <- app_assoc in Hl. simpl in Hl.
    destruct is_main.
    - split; [reflexivity|].
      assert (Hwhole : script_steps true
                       = take 59 (script_steps true) ++ x :: drop 60 (script_steps true))
        by reflexivity.
      rewrite Hl in Hwhole at 1.
      apply first_occurrence_unique in Hwhole;
        [|done|by apply (bool_decide_unpack _); vm_compute].
      exists (map ok_event (take 59 (script_steps true))), (map ok_event bb ++ tail).
      split; [|split].
      + rewrite Hs, Hwhole, map_app, <- app_assoc. reflexivity.
      + intros f. split; destruct f; by apply (bool_decide_unpack _); vm_compute.
      + intros c e. apply ok_event_not_raise.
    - exfalso.
      assert (Hx : x ∈ script_steps false) by (rewrite Hl; set_solver).
      revert Hx. by apply (bool_decide_unpack _); vm_compute. }
  split; [exact Hfirst|].
  intros (f & _ & Hnot) Hin. apply Hnot.
  destruct (Hfirst Hin) as (_ & pre & post & -> & Hret & _).
  destruct (Hret f) as [Hf _]. apply elem_of_app. by left.
Qed.

End Properties.

(** * Concrete runs *)

(** The run of [create_arrhythmia_detection_model] in a world that has the
    output directory, when no call raises. *)
Lemma create_builds_compiles_converts_saves_witness :
  let m := mkMLModel
             (mkKeras (architecture Arrhythmia) (Some ("adam", "categorical_crossentropy")))
             [mkTensorType (Some [1; 1000]) "ecg_signal"]
             [mkTensorType None "arrhythmia_probability"] iOS15 ALL
             "LifeLens Medical AI" "ECG Arrhythmia Detection (AFib, VTach, PVCs)"
             "1.0.0" in
  let w' := after (pipeline_steps Arrhythmia (recipe_of Arrhythmia)) with_dir in
  create quiet Arrhythmia with_dir = (inr m, w') /\
  short_description m = "ECG Arrhythmia Detection (AFib, VTach, PVCs)" /\
  saves (since with_dir w') = [("CoreMLModels/ECG_Arrhythmia.mlmodel", m)] /\
  fs w' = <["CoreMLModels/ECG_Arrhythmia.mlmodel" := File m]> (fs with_dir).
Proof.
  intros m w'.
  assert (H : create quiet Arrhythmia with_dir = (inr m, w'))
    by (vm_compute; reflexivity).
  split; [exact H|].
  destruct (create_builds_compiles_converts_saves quiet Arrhythmia with_dir w' m H)
    as (_ & _ & _ & _ & Hdescr & _ & _ & Hsaves & Hfs).
  split; [exact Hdescr|]. split; [exact Hsaves|exact Hfs].
Defined.

(** The main program from the empty world when no call raises. *)
Lemma main_invokes_each_once_in_order_witness :
  let w' := after (script_steps true) blank in
  script quiet true blank = (inr tt, w') /\
  invoked (since blank w') `prefix_of`
    [Arrhythmia; Troponin; BloodPressure; FallDetection;
     ActivityRecognition; SignalQuality; Glucose].
Proof.
  intros w'.
  assert (H : script quiet true blank = (inr tt, w')) by (vm_compute; reflexivity).
  split; [exact H|].
  exact (proj1 (main_invokes_each_once_in_order quiet blank w' (inr tt) H)).
Defined.

(** [create_arrhythmia_detection_model] when the disk is full: [save]
    raises, the function ends with that exception, nothing follows. *)
Lemma exceptions_propagate_unchanged_witness :
  let e := PyExc "OSError" "No space left on device" in
  let c := CSave (exported (recipe_of Arrhythmia)) "CoreMLModels/ECG_Arrhythmia.mlmodel" in
  let l1 := take 4 (pipeline_steps Arrhythmia (recipe_of Arrhythmia)) in
  let w' := record (EvCall c (Some e)) (after l1 blank) in
  create disk_full Arrhythmia blank = (inl e, w') /\
  since blank w' = map ok_event l1 ++ EvCall c (Some e) :: [] /\
  (@inl Exn MLModel e = inl e /\ @nil Event = []).
Proof.
  intros e c l1 w'.
  assert (H : create disk_full Arrhythmia blank = (inl e, w')) by (vm_compute; reflexivity).
  assert (Hs : since blank w' = map ok_event l1 ++ EvCall c (Some e) :: [])
    by (vm_compute; reflexivity).
  split; [exact H|]. split; [exact Hs|].
  exact (proj1 (exceptions_propagate_unchanged disk_full)
           Arrhythmia blank (inl e) w' (map ok_event l1) c e [] H Hs).
Defined.

(** The main program from the empty world leaves a path outside the output
    directory as it was. *)
Lemma only_output_dir_is_written_witness :
  let w' := after (script_steps true) blank in
  script quiet true blank = (inr tt, w') /\
  fs w' !! "LifeLens/Info.plist" = fs blank !! "LifeLens/Info.plist".
Proof.
  intros w'.
  assert (H : script quiet true blank = (inr tt, w')) by (vm_compute; reflexivity).
  split; [exact H|].
  apply (proj1 (proj1 (only_output_dir_is_written quiet) true blank (inr tt) w' H)).
  - discriminate.
  - intros f; destruct f; discriminate.
Defined.



(** One call of [create_signal_quality_model] in a world that has the
    output directory, when no call raises. *)
Lemma create_saves_one_mlmodel_and_prints_witness :
  let m := exported (recipe_of SignalQuality) in
  let w' := after (pipeline_steps SignalQuality (recipe_of SignalQuality)) with_dir in
  create quiet SignalQuality with_dir = (inr m, w') /\
  saves (since with_dir w') = [("CoreMLModels/Signal_Quality.mlmodel", m)] /\
  printed_since with_dir w' = ["✅ Created Signal_Quality.mlmodel"].
Proof.
  intros m w'.
  assert (H : create quiet SignalQuality with_dir = (inr m, w'))
    by (vm_compute; reflexivity).
  split; [exact H|].
  destruct (create_saves_one_mlmodel_and_prints quiet SignalQuality with_dir w' m H)
    as (Hsaves & _ & _ & Hprinted).
  split; [exact Hsaves|exact Hprinted].
Defined.

(** The claim that a successful call puts out nothing but its file fails on
    [create_arrhythmia_detection_model] in a world that has the output
    directory and an empty standard output: the call returns, has saved its
    one file in the directory, and standard output has a new line. *)
Lemma successful_call_prints_a_line :
  fs with_dir !! "CoreMLModels" = Some Dir /\
  stdout with_dir = [] /\
  create quiet Arrhythmia with_dir
    = (inr (exported (recipe_of Arrhythmia)),
       after (pipeline_steps Arrhythmia (recipe_of Arrhythmia)) with_dir) /\
  saves (since with_dir
           (after (pipeline_steps Arrhythmia (recipe_of Arrhythmia)) with_dir))
    = [("CoreMLModels/ECG_Arrhythmia.mlmodel", exported (recipe_of Arrhythmia))] /\
  stdout (after (pipeline_steps Arrhythmia (recipe_of Arrhythmia)) with_dir)
    = ["✅ Created ECG_Arrhythmia.mlmodel"] /\
  printed_since with_dir
    (after (pipeline_steps Arrhythmia (recipe_of Arrhythmia)) with_dir) <> [].
Proof.
  split; [vm_compute; reflexivity|]. split; [reflexivity|].
  split; [vm_compute; reflexivity|]. split; [vm_compute; reflexivity|].
  split; [vm_compute; reflexivity|]. vm_compute. discriminate.
Qed.

(** One call of [create_glucose_prediction_model] when no call raises. *)
Lemma models_configured_identically_witness :
  let m := exported (recipe_of Glucose) in
  let w' := after (pipeline_steps Glucose (recipe_of Glucose)) blank in
  create quiet Glucose blank = (inr m, w') /\
  author m = "LifeLens Medical AI" /\ version m = "1.0.0" /\
  ml_target m = iOS15 /\ ml_compute_units m = ALL /\
  fs w' !! "CoreMLModels/Glucose_Prediction.mlmodel" = Some (File m).
Proof.
  intros m w'.
  assert (H : create quiet Glucose blank = (inr m, w')) by (vm_compute; reflexivity).
  split; [exact H|].
  exact (proj2 (proj2 (models_configured_identically quiet Glucose blank w' (inr m) H))
           m eq_refl).
Defined.

(** The main program from the empty world: the seven functions have returned
    before the summary is printed, and an import prints no summary. *)
Lemma summary_only_after_all_models_witness :
  let w' := after (script_steps true) blank in
  script quiet true blank = (inr tt, w') /\
  "✅ All Core ML models created successfully!" ∈ printed_since blank w' /\
  exists pre post,
    since blank w' =
      pre ++ EvCall (CPrint "✅ All Core ML models created successfully!") None :: post /\
    (forall f, EvReturn f ∈ pre /\
               EvCall (CSave (exported (recipe_of f))
                             ("CoreMLModels/" +:+ file_name f)) None ∈ pre) /\
    (forall c e, EvCall c (Some e) ∉ pre).
Proof.
  intros w'.
  assert (H : script quiet true blank = (inr tt, w')) by (vm_compute; reflexivity).
  assert (Hin : "✅ All Core ML models created successfully!" ∈ printed_since blank w')
    by (apply (bool_decide_unpack _); vm_compute; exact I).
  split; [exact H|]. split; [exact Hin|].
  exact (proj2 (proj1 (summary_only_after_all_models quiet true blank w' (inr tt) H) Hin)).
Defined.

(** * Further properties of the script *)

Section Further.

Variable oracle : World -> LibCall -> option Exn.

(** ** Runs, with what is known of the calls that returned *)

(** A run has taken a prefix [l1] of its steps; every call of [l1]
    returned, and the run ended there, normally when nothing is left and
    with the exception of the next call otherwise. *)
Lemma exec_taken l : forall w r w',
  exec oracle l w = (r, w') ->
  exists l1 l2,
    l = l1 ++ l2 /\
    (forall la c lb, l1 = la ++ SCall c :: lb ->
                     outcome oracle (after la w) c = None) /\
    ((r = inr tt /\ l2 = [] /\ w' = after l1 w) \/
     (exists c e l3,
         r = inl e /\ l2 = SCall c :: l3 /\
         outcome oracle (after l1 w) c = Some e /\
         w' = record (EvCall c (Some e)) (after l1 w))).
Proof.
  induction l as [|s l IH]; intros w r w' H.
  - exists [], []. inversion H; subst. split; [reflexivity|]. split.
    + intros [|? ?] ? ? ?; discriminate.
    + by left.
  - simpl in H. unfold bind in H.
    assert (Hnext : (forall c, s = SCall c -> outcome oracle w c = None) ->
              exec oracle l (advance w s) = (r, w') ->
              exists l1 l2,
                s :: l = l1 ++ l2 /\
                (forall la c lb, l1 = la ++ SCall c :: lb ->
                                 outcome oracle (after la w) c = None) /\
                ((r = inr tt /\ l2 = [] /\ w' = after l1 w) \/
                 (exists c e l3,
                     r = inl e /\ l2 = SCall c :: l3 /\
                     outcome oracle (after l1 w) c = Some e /\
                     w' = record (EvCall c (Some e)) (after l1 w)))).
    { intros Hs H'. apply IH in H' as (l1 & l2 & -> & Hok & Hend).
      exists (s :: l1), l2. split; [reflexivity|]. split; [|exact Hend].
      intros [|s' la] c lb Heq; injection Heq as -> ->.
      - by apply Hs.
      - by eapply Hok. }
    destruct s as [f|f|c]; simpl in H; try (apply Hnext; [discriminate|done]).
    unfold lib in H. destruct (outcome oracle w c) as [e|] eqn:Ho.
    + inversion H; subst. exists [], (SCall c :: l).
      split; [reflexivity|]. split.
      * intros [|? ?] ? ? ?; discriminate.
      * right. by exists c, e, l.
    + apply Hnext; [congruence|done].
Qed.

Lemma since_raise l1 w c e :
  since w (record (EvCall c (Some e)) (after l1 w))
  = map ok_event l1 ++ [EvCall c (Some e)].
Proof. apply since_app. simpl. by rewrite trace_after, app_assoc. Qed.

Lemma create_taken f w r w' :
  create oracle f w = (r, w') ->
  exists l1 l2,
    pipeline_steps f (recipe_of f) = l1 ++ l2 /\
    (forall la c lb, l1 = la ++ SCall c :: lb ->
                     outcome oracle (after la w) c = None) /\
    ((r = inr (exported (recipe_of f)) /\ l2 = [] /\ w' = after l1 w) \/
     (exists c e l3,
         r = inl e /\ l2 = SCall c :: l3 /\
         outcome oracle (after l1 w) c = Some e /\
         w' = record (EvCall c (Some e)) (after l1 w))).
Proof.
  rewrite create_pipeline, pipeline_exec. unfold bind.
  destruct (exec oracle (pipeline_steps f (recipe_of f)) w) as [r1 w1] eqn:E.
  apply exec_taken in E as (l1 & l2 & Hl & Hok & Hend). intros H.
  exists l1, l2. split; [exact Hl|]. split; [exact Hok|].
  destruct Hend as [(-> & -> & ->)|(c & e & l3 & -> & -> & Ho & ->)].
  - left. by inversion H.
  - right. inversion H; subst. by exists c, e, l3.
Qed.

Lemma script_taken b w r w' :
  script oracle b w = (r, w') ->
  exists l1 l2,
    script_steps b = l1 ++ l2 /\
    (forall la c lb, l1 = la ++ SCall c :: lb ->
                     outcome oracle (after la w) c = None) /\
    ((r = inr tt /\ l2 = [] /\ w' = after l1 w) \/
     (exists c e l3,
         r = inl e /\ l2 = SCall c :: l3 /\
         outcome oracle (after l1 w) c = Some e /\
         w' = record (EvCall c (Some e)) (after l1 w))).
Proof. rewrite script_exec. apply exec_taken. Qed.

(** ** Where an exception comes from *)

Lemma ran_end w l o w' :
  Ran oracle w l o w' ->
  match o with
  | Some e => exists pre c, since w w' = pre ++ [EvCall c (Some e)]
  | None => forall c e, EvCall c (Some e) ∉ since w w'
  end.
Proof.
  intros [l0 Hall|l1 c l2 e Ho].
  - intros c e. rewrite since_after. apply ok_event_not_raise.
  - exists (map ok_event l1), c. apply since_raise.
Qed.

(** X1: the script raises nothing of its own.  A call of a function, or a
    run of the script, ends with an exception exactly when the last event of
    its history is an external call that raised it; a call or run that ends
    normally has no raising call in its history. *)
Theorem failure_is_a_raising_call :
  (forall f w,
      match fst (create oracle f w) with
      | inl e => exists pre c,
          since w (snd (create oracle f w)) = pre ++ [EvCall c (Some e)]
      | inr _ => forall c e, EvCall c (Some e) ∉ since w (snd (create oracle f w))
      end) /\
  (forall is_main w,
      match fst (script oracle is_main w) with
      | inl e => exists pre c,
          since w (snd (script oracle is_main w)) = pre ++ [EvCall c (Some e)]
      | inr _ => forall c e,
          EvCall c (Some e) ∉ since w (snd (script oracle is_main w))
      end).
Proof.
  split.
  - intros f w. destruct (create oracle f w) as [r w'] eqn:H.
    apply create_ran in H as [HR _]. apply ran_end in HR. by destruct r.
  - intros b w. destruct (script oracle b w) as [r w'] eqn:H.
    apply script_ran, ran_end in H. by destruct r.
Qed.

(** ** Order of the external calls *)

Lemma ran_calls_prefix w l o w' :
  Ran oracle w l o w' -> calls (since w w') `prefix_of` calls (map ok_event l).
Proof.
  intros [l0 Hall|l1 c l2 e Ho].
  - by rewrite since_after.
  - rewrite since_raise. unfold calls. rewrite map_app, !omap_app. simpl.
    exists (omap called (map ok_event l2)). by rewrite <- app_assoc.
Qed.

(** X2: the calls [keras.Sequential], [compile], [ct.convert], [save] and
    [print] of a function come in that order.  These five are the calls of
    a function that the history records; the layer, tensor and metadata
    expressions between them are data here.  Whatever the calls do, the
    ones a call of a function has made are an initial part of that list: it
    never saves before it has converted, never converts before it has
    compiled, repeats none of them and makes none after one that raised. *)
Theorem create_calls_in_fixed_order (f : ModelFn) (w : World) :
  let r := recipe_of f in
  calls (since w (snd (create oracle f w))) `prefix_of`
    [ CSequential (r_layers r);
      CCompile (mkKeras (r_layers r) None) "adam" (r_loss r);
      CConvert (mkKeras (r_layers r) (Some ("adam", r_loss r)))
               (r_inputs r) (r_outputs r) iOS15 ALL;
      CSave (exported r) ("CoreMLModels/" +:+ file_name f);
      CPrint ("✅ Created " +:+ file_name f) ].
Proof.
  intros r. destruct (create oracle f w) as [res w'] eqn:H.
  apply create_ran in H as [HR _]. apply ran_calls_prefix in HR.
  simpl. replace ("CoreMLModels/" +:+ file_name f) with (saved_at r)
    by (unfold r; destruct f; reflexivity).
  replace ("✅ Created " +:+ file_name f) with (created_line r)
    by (unfold r; destruct f; reflexivity).
  exact HR.
Qed.

(** ** Nothing is removed *)

Lemma advance_keeps w s p :
  is_Some (fs w !! p) -> is_Some (fs (advance w s) !! p).
Proof.
  rewrite fs_advance_node. intros [n Hn]. rewrite Hn.
  destruct s as [f|f|c]; simpl; eauto.
  destruct c; simpl; eauto; case_decide; eauto.
Qed.

Lemma after_keeps l p : forall w,
  is_Some (fs w !! p) -> is_Some (fs (after l w) !! p).
Proof.
  induction l as [|s l IH]; intros w H; simpl; [exact H|].
  apply IH, advance_keeps, H.
Qed.

(** X3: a run of the script removes nothing.  Every path that exists before
    the run exists after it, and the lines already on standard output are
    still there, followed by what the run printed. *)
Theorem script_removes_nothing (is_main : bool) (w : World) :
  (forall p, is_Some (fs w !! p) ->
             is_Some (fs (snd (script oracle is_main w)) !! p)) /\
  stdout (snd (script oracle is_main w))
    = stdout w ++ printed_since w (snd (script oracle is_main w)).
Proof.
  destruct (script oracle is_main w) as [r w'] eqn:H. simpl.
  apply script_ran, ran_shape in H as (l1 & l2 & tail & _ & Hfs & Hout & _).
  split.
  - intros p Hp. rewrite Hfs. by apply after_keeps.
  - unfold printed_since. rewrite Hout, stdout_after.
    by rewrite drop_app_length.
Qed.

(** ** A call that fails *)

(** X4: where a failing call stops decides what it leaves.  A call of one
    of the seven functions that ends with an exception raised while
    building, compiling or converting has written no file and printed
    nothing; one that ends in [save] has printed nothing; one that ends in
    the confirmation [print] has its model file on disk already, because
    [save] comes before [print]. *)
Theorem failed_call_effects_by_failing_call
    (f : ModelFn) (w w' : World) (e : Exn) :
  create oracle f w = (inl e, w') ->
  exists pre c,
    since w w' = pre ++ [EvCall c (Some e)] /\
    match c with
    | CPrint _ =>
        fs w' = <["CoreMLModels/" +:+ file_name f
                  := File (exported (recipe_of f))]> (fs w)
    | CSave _ _ => stdout w' = stdout w
    | _ => fs w' = fs w /\ stdout w' = stdout w
    end.
Proof.
  intros H. apply create_taken in H as (l1 & l2 & Hl & _ & Hend).
  destruct Hend as [(? & _)|(c & e0 & l3 & [= <-] & -> & _ & ->)]; [discriminate|].
  exists (map ok_event l1), c. split; [apply since_raise|].
  unfold pipeline_steps, pipeline_calls in Hl. simpl in Hl.
  rewrite <- r_file_recipe. fold (saved_at (recipe_of f)).
  destruct l1 as [|s1 [|s2 [|s3 [|s4 [|s5 [|s6 [|s7 l1]]]]]]];
    simpl in Hl; try discriminate;
    injection Hl as ?; subst; try discriminate; try (split; reflexivity);
    try reflexivity.
  destruct l1; discriminate.
Qed.

(** ** Running the script again *)

Lemma node_step_frame p n s : target s <> Some p -> node_step p n s = n.
Proof.
  destruct s as [f|f|c]; try reflexivity.
  destruct c; simpl; intros H; try reflexivity; case_decide; congruence.
Qed.

Lemma node_after_frame l p : forall n,
  (forall s, s ∈ l -> target s <> Some p) -> node_after l p n = n.
Proof.
  induction l as [|s l IH]; intros n Hl; [reflexivity|].
  unfold node_after in IH |- *. simpl. rewrite node_step_frame.
  - apply IH. intros s' Hs'. apply Hl. by right.
  - apply Hl. by left.
Qed.

Lemma node_after_script_twice b p n :
  node_after (script_steps b) p (node_after (script_steps b) p n)
  = node_after (script_steps b) p n.
Proof.
  destruct (decide (p ∈ output_paths)) as [Hp|Hp].
  - apply output_paths_spec in Hp as [->|[f ->]].
    + by destruct b, n as [[|m]|].
    + destruct b, f; vm_compute; reflexivity.
  - rewrite !node_after_frame; [reflexivity|..];
      intros s Hs Ht; apply Hp; by eapply script_targets.
Qed.

(** X5: running the script a second time creates no path and removes none.
    When two runs in a row both end normally, as the main program or as an
    import, the same paths exist after the second as after the first, each
    a directory or a file as before; the second run has saved to the same
    paths in the same order and has printed the same lines. *)
Theorem rerun_leaves_same_paths (is_main : bool) (w w1 w2 : World) :
  script oracle is_main w = (inr tt, w1) ->
  script oracle is_main w1 = (inr tt, w2) ->
  is_dir <$> fs w2 = is_dir <$> fs w1 /\
  map fst (saves (since w1 w2)) = map fst (saves (since w w1)) /\
  printed_since w1 w2 = printed_since w w1.
Proof.
  intros H1 H2. apply script_ran in H1, H2.
  inversion H1 as [l0 Hall1 E1 E2 E3|]; subst; clear E2.
  inversion H2 as [l0 Hall2 E1 E2 E3|]; subst. split; [|split].
  - f_equal. apply map_eq. intros p. rewrite !fs_after_node.
    apply node_after_script_twice.
  - by rewrite !since_after.
  - by rewrite !printed_since_after.
Qed.

(** ** What a run prints, saves and enters *)

Lemma ran_omap_prefix {B} (g : Event -> option B) w l o w' :
  (forall c e, g (EvCall c (Some e)) = None) ->
  Ran oracle w l o w' ->
  omap g (since w w') `prefix_of` omap g (map ok_event l).
Proof.
  intros Hg [l0 Hall|l1 c l2 e Ho].
  - by rewrite since_after.
  - rewrite since_raise, map_app, !omap_app. simpl. rewrite Hg, app_nil_r.
    by eexists.
Qed.

Lemma saved_raise c e : saved (EvCall c (Some e)) = None.
Proof. by destruct c. Qed.

Lemma ran_printed_prefix w l o w' :
  Ran oracle w l o w' -> printed_since w w' `prefix_of` omap line_of l.
Proof.
  intros HR. apply ran_printed in HR as (l1 & l2 & tail & -> & -> & _).
  rewrite omap_app. by eexists.
Qed.

(** X6: the console transcript of the main program.  In every run the lines
    printed are an initial part of the sixteen lines below, in this order;
    a run that ends normally has printed all sixteen. *)
Theorem main_prints_its_transcript (w : World) :
  let lines :=
    [ "Creating Core ML models for LifeLens...";
      "==================================================";
      "✅ Created ECG_Arrhythmia.mlmodel";
      "✅ Created Troponin_Detection.mlmodel";
      "✅ Created BP_Estimation.mlmodel";
      "✅ Created Fall_Detection.mlmodel";
      "✅ Created Activity_Recognition.mlmodel";
      "✅ Created Signal_Quality.mlmodel";
      "✅ Created Glucose_Prediction.mlmodel";
      "==================================================";
      "✅ All Core ML models created successfully!";
      "📁 Models saved in: CoreMLModels/";
      String (Ascii.ascii_of_nat 10) "Next steps:";
      "1. Add CoreMLModels folder to Xcode project";
      "2. Ensure 'Copy items if needed' is checked";
      "3. Models will be compiled automatically by Xcode" ] in
  printed_since w (snd (script oracle true w)) `prefix_of` lines /\
  (fst (script oracle true w) = inr tt ->
   printed_since w (snd (script oracle true w)) = lines).
Proof.
  intros lines. destruct (script oracle true w) as [r w'] eqn:H. simpl.
  apply script_ran in H.
  assert (Hlines : omap line_of (script_steps true) = lines) by reflexivity.
  split.
  - rewrite <- Hlines. by eapply ran_printed_prefix.
  - intros ->. inversion H; subst. by rewrite printed_since_after.
Qed.

(** X7: importing the module runs none of the seven functions.  Without
    [__name__ == "__main__"] a run enters no function, prints nothing, saves
    nothing, makes at most the six imports and the one [os.makedirs], and
    leaves every path other than [CoreMLModels] as it was. *)
Theorem import_only_creates_the_directory (w : World) :
  let w' := snd (script oracle false w) in
  invoked (since w w') = [] /\
  printed_since w w' = [] /\
  saves (since w w') = [] /\
  calls (since w w') `prefix_of`
    [ CImport "coremltools"; CImport "numpy";
      CImport "coremltools.models.neural_network";
      CImport "tensorflow"; CImport "tensorflow.keras"; CImport "os";
      CMakedirs "CoreMLModels" true ] /\
  (forall p, p <> "CoreMLModels" -> fs w' !! p = fs w !! p).
Proof.
  destruct (script oracle false w) as [r w'] eqn:H. simpl.
  apply script_ran in H. repeat split.
  - apply prefix_nil_inv.
    by apply (ran_omap_prefix entered _ _ _ _ (fun _ _ => eq_refl) H).
  - apply prefix_nil_inv. by apply (ran_printed_prefix _ _ _ _ H).
  - apply prefix_nil_inv.
    by apply (ran_omap_prefix saved _ _ _ _ saved_raise H).
  - by apply (ran_calls_prefix _ _ _ _ H).
  - intros p Hp. apply (ran_frame _ _ _ _ _ _ H). intros s Hs Ht. apply Hp.
    unfold script_steps, init_steps in Hs. simpl in Hs.
    rewrite !elem_of_cons, elem_of_nil in Hs.
    destruct Hs as [->|[->|[->|[->|[->|[->|[->|[]]]]]]]]; simpl in Ht;
      try discriminate. by injection Ht.
Qed.

(** ** The directory comes first *)

Lemma script_steps_split b :
  script_steps b =
  import_steps ++ SCall (CMakedirs output_dir true) ::
    (if b then header_steps ++ model_steps driver_order ++ footer_steps else []).
Proof. reflexivity. Qed.

Lemma split_around {A} (l1 l2 pre post : list A) x :
  l1 ++ l2 = pre ++ x :: post ->
  (exists l, pre = l1 ++ l /\ l2 = l ++ x :: post) \/
  (exists l, l1 = pre ++ x :: l /\ post = l ++ l2).
Proof.
  intros H. apply app_eq_app in H as [l [[-> H]|[-> ->]]].
  - destruct l as [|y l]; simpl in H.
    + left. exists []. subst l2. by rewrite !app_nil_r.
    + injection H as -> ->. right. by exists l.
  - left. by exists l.
Qed.

Lemma import_steps_inert s :
  s ∈ import_steps ->
  (exists m, s = SCall (CImport m)) /\ target s = None /\ line_of s = None /\
  entered (ok_event s) = None /\ saved (ok_event s) = None.
Proof.
  unfold import_steps. simpl. rewrite !elem_of_cons, elem_of_nil.
  intros [->|[->|[->|[->|[->|[->|[]]]]]]]; repeat split; by eexists.
Qed.

Lemma omap_all_none {A B} (g : A -> option B) l :
  (forall x, x ∈ l -> g x = None) -> omap g l = [].
Proof.
  induction l as [|x l IH]; intros H; [reflexivity|]. simpl.
  rewrite (H x) by (by left). apply IH. intros y Hy. apply H. by right.
Qed.

(** A run that stopped among the imports has changed nothing. *)
Lemma among_imports l1 l w :
  import_steps = l1 ++ l ->
  fs (after l1 w) = fs w /\ stdout (after l1 w) = stdout w /\
  invoked (map ok_event l1) = [] /\ saves (map ok_event l1) = [].
Proof.
  intros Hl.
  assert (Hin : forall s, s ∈ l1 -> s ∈ import_steps)
    by (intros s Hs; rewrite Hl; apply elem_of_app; by left).
  repeat split.
  - apply map_eq. intros p. apply fs_after_frame. intros s Hs.
    destruct (import_steps_inert s (Hin s Hs)) as (_ & -> & _). discriminate.
  - rewrite stdout_after, omap_all_none, app_nil_r; [reflexivity|].
    intros s Hs. by destruct (import_steps_inert s (Hin s Hs)) as (_ & _ & -> & _).
  - apply omap_all_none. intros ev Hev.
    apply list_elem_of_fmap in Hev as (s & -> & Hs).
    by destruct (import_steps_inert s (Hin s Hs)) as (_ & _ & _ & -> & _).
  - apply omap_all_none. intros ev Hev.
    apply list_elem_of_fmap in Hev as (s & -> & Hs).
    by destruct (import_steps_inert s (Hin s Hs)) as (_ & _ & _ & _ & ->).
Qed.

(** X8: nothing is entered, printed or saved before the output directory is
    there.  A run of the script that has entered a function, printed a line
    or saved a file has had its [os.makedirs] return before, and ends with
    [CoreMLModels] a directory. *)
Theorem directory_exists_before_any_output (is_main : bool) (w : World) :
  let w' := snd (script oracle is_main w) in
  invoked (since w w') <> [] \/ printed_since w w' <> [] \/ saves (since w w') <> [] ->
  EvCall (CMakedirs "CoreMLModels" true) None ∈ since w w' /\
  fs w' !! "CoreMLModels" = Some Dir.
Proof.
  destruct (script oracle is_main w) as [r w'] eqn:H. simpl.
  apply script_taken in H as (l1 & l2 & Hl & Hok & Hend).
  assert (Hw : fs w' = fs (after l1 w) /\ stdout w' = stdout (after l1 w) /\
               exists tail, since w w' = map ok_event l1 ++ tail /\
                            invoked tail = [] /\ saves tail = []).
  { destruct Hend as [(_ & _ & ->)|(c & e & l3 & _ & _ & _ & ->)].
    - split; [reflexivity|]. split; [reflexivity|].
      exists []. by rewrite app_nil_r, since_after.
    - split; [reflexivity|]. split; [reflexivity|].
      exists [EvCall c (Some e)]. split; [apply since_raise|].
      split; [reflexivity|]. by destruct c. }
  destruct Hw as (Hfs & Hout & tail & Hs & Hti & Hts).
  rewrite script_steps_split in Hl. symmetry in Hl.
  apply split_around in Hl as [(l & HI & _)|(l & -> & Hrest)].
  - intros Hsome. exfalso.
    destruct (among_imports l1 l w HI) as (_ & Ho & Hi & Hsv).
    assert (Hp0 : printed_since w w' = [])
      by (unfold printed_since; rewrite Hout, Ho; apply drop_all).
    unfold invoked, saves in *.
    rewrite Hp0, Hs, !omap_app, Hi, Hsv, Hti, Hts in Hsome.
    by destruct Hsome as [?|[?|?]].
  - intros _. split.
    + rewrite Hs, map_app. apply elem_of_app. left. apply elem_of_app. right.
      by left.
    + rewrite Hfs.
      pose proof (Hok import_steps (CMakedirs output_dir true) l eq_refl) as Hmk.
      change "CoreMLModels" with output_dir.
      rewrite fs_after_node.
      change (import_steps ++ SCall (CMakedirs output_dir true) :: l)
        with ((import_steps ++ [SCall (CMakedirs output_dir true)]) ++ l).
      rewrite node_after_app.
      assert (Hd : node_after (import_steps ++ [SCall (CMakedirs output_dir true)])
                     output_dir (fs w !! output_dir) = Some Dir).
      { simpl in Hmk. by destruct (fs w !! output_dir) as [[|m]|]. }
      rewrite Hd. apply node_after_dir. intros s Hs' m.
      apply (script_never_saves_over_dir is_main). rewrite script_steps_split, Hrest.
      apply elem_of_app. right. right. apply elem_of_app. by left.
Qed.

(** X9: a file in the way.  When [CoreMLModels] exists and is a regular
    file, every run of the script ends with an exception before anything is
    entered, printed or written: the file system and standard output are as
    they were.  Unless an import raised first, the exception is the
    [FileExistsError] of [os.makedirs], which [exist_ok] does not silence
    for a path that is not a directory. *)
Theorem file_in_place_of_directory_stops_the_script
    (is_main : bool) (w w' : World) (r : Exn + unit) (m0 : MLModel) :
  fs w !! "CoreMLModels" = Some (File m0) ->
  script oracle is_main w = (r, w') ->
  (exists e, r = inl e /\
             ((forall m e', EvCall (CImport m) (Some e') ∉ since w w') ->
              e = PyExc "FileExistsError"
                        "[Errno 17] File exists: 'CoreMLModels'")) /\
  fs w' = fs w /\ stdout w' = stdout w /\ invoked (since w w') = [].
Proof.
  intros Hfile H. apply script_taken in H as (l1 & l2 & Hl & Hok & Hend).
  rewrite script_steps_split in Hl. symmetry in Hl.
  apply split_around in Hl as [(l & HI & Hl2)|(l & -> & _)].
  - destruct (among_imports l1 l w HI) as (Hfs & Hout & Hinv & _).
    destruct Hend as [(_ & -> & _)|(c & e & l3 & -> & -> & Ho & ->)].
    { by destruct l. }
    split; [|split; [|split]]; try done.
    + exists e. split; [reflexivity|]. intros Hno.
      destruct l as [|s l]; simpl in Hl2.
      * injection Hl2 as -> _. unfold outcome in Ho.
        change output_dir with "CoreMLModels" in Ho.
        rewrite Hfs, Hfile in Ho. by injection Ho as <-.
      * injection Hl2 as <- _. exfalso.
        assert (Hs : SCall c ∈ import_steps)
          by (rewrite HI; apply elem_of_app; right; by left).
        apply import_steps_inert in Hs as ([m [= ->]] & _).
        apply (Hno m e). rewrite since_raise. apply elem_of_app. right. by left.
    + rewrite since_raise. unfold invoked in *. by rewrite omap_app, Hinv.
  - exfalso.
    pose proof (Hok import_steps (CMakedirs output_dir true) l eq_refl) as Hmk.
    simpl in Hmk. change output_dir with "CoreMLModels" in Hmk.
    by rewrite Hfile in Hmk.
Qed.

Lemma init_steps_inert s :
  s ∈ init_steps ->
  line_of s = None /\ (target s = None \/ target s = Some output_dir).
Proof.
  unfold init_steps. simpl. rewrite !elem_of_cons, elem_of_nil.
  intros [->|[->|[->|[->|[->|[->|[->|[]]]]]]]]; split; auto.
Qed.

(** C9: creating the output directory is idempotent.  The module body
    calls [os.makedirs('CoreMLModels', exist_ok=True)] once the imports
    have returned, and calls [os.makedirs] in no other way.  In a world
    where [CoreMLModels] is already a directory, that call returns without
    raising in every run of the script, imported or as the main program,
    and the directory is still there at the end; an import of the module
    then changes nothing in the file system, prints nothing, and ends
    normally. *)
Theorem output_dir_creation_idempotent (is_main : bool) (w w' : World) (r : Exn + unit) :
  fs w !! "CoreMLModels" = Some Dir ->
  script oracle is_main w = (r, w') ->
  (forall p ok o,
      EvCall (CMakedirs p ok) o ∈ since w w' ->
      p = "CoreMLModels" /\ ok = true /\ o = None) /\
  fs w' !! "CoreMLModels" = Some Dir /\
  ((forall m e, EvCall (CImport m) (Some e) ∉ since w w') ->
   EvCall (CMakedirs "CoreMLModels" true) None ∈ since w w' /\
   (is_main = false -> r = inr tt)) /\
  (is_main = false -> fs w' = fs w /\ stdout w' = stdout w).
Proof.
  intros Hdir H. apply script_taken in H as (l1 & l2 & Hl & Hok & Hend).
  assert (Hkeep : fs (after l1 w) !! output_dir = Some Dir).
  { rewrite fs_after_node. change output_dir with "CoreMLModels".
    rewrite Hdir. apply node_after_dir. intros s Hs m.
    apply (script_never_saves_over_dir is_main). rewrite Hl.
    apply elem_of_app. by left. }
  assert (Hnomk : forall c e l3, l2 = SCall c :: l3 ->
            outcome oracle (after l1 w) c = Some e ->
            forall p ok, c <> CMakedirs p ok).
  { intros c e l3 -> Ho p ok ->.
    assert (Hin : SCall (CMakedirs p ok) ∈ script_steps is_main)
      by (rewrite Hl; apply elem_of_app; right; by left).
    apply script_makedirs in Hin as [-> ->].
    unfold outcome in Ho. by rewrite Hkeep in Ho. }
  assert (Hw : fs w' = fs (after l1 w) /\ stdout w' = stdout (after l1 w) /\
               exists tail, since w w' = map ok_event l1 ++ tail /\
                 ((tail = [] /\ l2 = [] /\ r = inr tt) \/
                  exists c e l3, l2 = SCall c :: l3 /\
                    outcome oracle (after l1 w) c = Some e /\
                    tail = [EvCall c (Some e)])).
  { destruct Hend as [(-> & -> & ->)|(c & e & l3 & _ & -> & Ho & ->)].
    - split; [reflexivity|]. split; [reflexivity|].
      exists []. rewrite app_nil_r, since_after. split; [reflexivity|by left].
    - split; [reflexivity|]. split; [reflexivity|].
      exists [EvCall c (Some e)]. split; [apply since_raise|].
      right. by exists c, e, l3. }
  clear Hend. destruct Hw as (Hfs & Hout & tail & Hs & Htail).
  split; [|split; [|split]].
  - intros p ok o Hin. rewrite Hs in Hin. apply elem_of_app in Hin as [Hin|Hin].
    + apply list_elem_of_fmap in Hin as (s & Heq & Hin).
      destruct s as [g|g|c]; try discriminate. injection Heq as <- <-.
      assert (Hin' : SCall (CMakedirs p ok) ∈ script_steps is_main)
        by (rewrite Hl; apply elem_of_app; by left).
      by apply script_makedirs in Hin' as [-> ->].
    + destruct Htail as [(-> & _)|(c & e & l3 & Hl2 & Ho & ->)].
      * by apply elem_of_nil in Hin.
      * apply list_elem_of_singleton in Hin. injection Hin as <- _.
        by destruct (Hnomk _ _ _ Hl2 Ho p ok).
  - by rewrite Hfs.
  - intros Hno. rewrite script_steps_split in Hl. symmetry in Hl.
    apply split_around in Hl as [(l & HI & Hl2)|(l & Hl1 & Hrest)].
    + exfalso.
      destruct Htail as [(_ & -> & _)|(c & e & l3 & -> & Ho & ->)];
        [by destruct l|].
      destruct l as [|s l]; simpl in Hl2.
      * injection Hl2 as -> _.
        by destruct (Hnomk _ _ _ eq_refl Ho output_dir true).
      * injection Hl2 as <- _.
        assert (Hin : SCall c ∈ import_steps)
          by (rewrite HI; apply elem_of_app; right; by left).
        apply import_steps_inert in Hin as ([m [= ->]] & _).
        apply (Hno m e). rewrite Hs. apply elem_of_app. right. by left.
    + split.
      * rewrite Hs, Hl1, map_app. apply elem_of_app. left. apply elem_of_app.
        right. by left.
      * intros ->. simpl in Hrest. symmetry in Hrest.
        apply app_eq_nil in Hrest as [_ ->].
        destruct Htail as [(_ & _ & ->)|(c & e & l3 & ? & _)];
          [reflexivity|discriminate].
  - intros ->.
    assert (Hin : forall s, s ∈ l1 -> s ∈ init_steps).
    { intros s Hs'. change init_steps with (script_steps false ++ []).
      rewrite app_nil_r, Hl. apply elem_of_app. by left. }
    split.
    + rewrite Hfs. apply map_eq. intros p.
      destruct (decide (p = output_dir)) as [->|Hp].
      * rewrite Hkeep. by rewrite <- Hdir.
      * apply fs_after_frame. intros s Hs' Ht.
        destruct (init_steps_inert s (Hin s Hs')) as [_ [Hn|Hd]]; congruence.
    + rewrite Hout, stdout_after, omap_all_none, app_nil_r; [reflexivity|].
      intros s Hs'. by destruct (init_steps_inert s (Hin s Hs')) as [-> _].
Qed.

(** ** Files of the functions that ran, and of those that did not *)

Lemma upto_past_spec {A} `{EqDecision A} (a t : list A) x :
  x ∉ a -> upto x (a ++ x :: t) = a /\ past x (a ++ x :: t) = t.
Proof.
  induction a as [|y a IH]; intros Ha; simpl.
  - by destruct (decide (x = x)).
  - destruct (decide (y = x)) as [->|_]; [exfalso; apply Ha; by left|].
    destruct IH as [-> ->]; [|done]. intros Hx. apply Ha. by right.
Qed.

Lemma file_after_return f n :
  node_after (upto (SReturn f) (script_steps true)) (model_path f) n
  = Some (File (exported (recipe_of f))).
Proof. destruct f; vm_compute; reflexivity. Qed.

Lemma no_write_past_return f s :
  s ∈ past (SReturn f) (script_steps true) -> target s <> Some (model_path f).
Proof.
  assert (H : forallb (fun s => negb (bool_decide (target s = Some (model_path f))))
                      (past (SReturn f) (script_steps true)) = true)
    by (destruct f; vm_compute; reflexivity).
  rewrite forallb_forall in H. intros Hs Ht.
  apply list_elem_of_In, H, negb_true_iff, bool_decide_eq_false in Hs. done.
Qed.

Lemma line_before_return f :
  created_line (recipe_of f)
    ∈ omap line_of (upto (SReturn f) (script_steps true)).
Proof. destruct f; by apply (bool_decide_unpack _); vm_compute. Qed.

Lemma no_return_on_import f : SReturn f ∉ script_steps false.
Proof. destruct f; by apply (bool_decide_unpack _); vm_compute. Qed.

(** X10: a function that returned has left its file.  In every run of the
    script, however it ends, a function whose return is in the history has
    had its confirmation line printed, and at the end of the run its path
    holds the model it exported: a later failure undoes nothing. *)
Theorem returned_function_left_its_file (is_main : bool) (w : World) (f : ModelFn) :
  let w' := snd (script oracle is_main w) in
  EvReturn f ∈ since w w' ->
  ("✅ Created " +:+ file_name f) ∈ printed_since w w' /\
  fs w' !! ("CoreMLModels/" +:+ file_name f) = Some (File (exported (recipe_of f))).
Proof.
  destruct (script oracle is_main w) as [r w'] eqn:H. simpl.
  apply script_ran, ran_shape in H as (l1 & l2 & tail & Hl & Hfs & Hout & Hs & Ht).
  intros Hret.
  assert (Hin : SReturn f ∈ l1).
  { rewrite Hs in Hret. apply elem_of_app in Hret as [Hret|Hret].
    - apply list_elem_of_fmap in Hret as (s & Heq & Hin).
      destruct s as [g|g|c]; try discriminate. by injection Heq as ->.
    - destruct Ht as [(_ & _ & ->)|(c & e & l3 & _ & _ & ->)].
      + by apply elem_of_nil in Hret.
      + by apply list_elem_of_singleton in Hret. }
  apply list_elem_of_split_l in Hin as (a & bb & -> & Ha).
  rewrite <- app_assoc in Hl. simpl in Hl.
  destruct is_main;
    [|exfalso; apply (no_return_on_import f); rewrite Hl; apply elem_of_app;
      right; by left].
  destruct (upto_past_spec a (bb ++ l2) (SReturn f) Ha) as [Hup Hpast].
  rewrite <- Hl in Hup, Hpast.
  rewrite <- r_file_recipe. fold (created_line (recipe_of f)).
  fold (saved_at (recipe_of f)). rewrite saved_at_recipe. split.
  - unfold printed_since. rewrite Hout, stdout_after, drop_app_length, omap_app.
    apply elem_of_app. left. rewrite <- Hup. apply line_before_return.
  - rewrite Hfs, fs_after_node.
    change (a ++ SReturn f :: bb) with (a ++ [SReturn f] ++ bb).
    rewrite !node_after_app, <- Hup, file_after_return. simpl.
    apply node_after_frame. intros s Hs'. apply no_write_past_return.
    rewrite Hpast. apply elem_of_app. by left.
Qed.

Lemma script_writes_by_save b f s :
  s ∈ script_steps b -> target s = Some (model_path f) ->
  b = true /\ s = save_step f.
Proof.
  assert (H : forallb (fun s => match target s with
                               | Some p =>
                                   if decide (p = model_path f)
                                   then bool_decide (s = save_step f) && b
                                   else true
                               | None => true
                               end) (script_steps b) = true)
    by (destruct b, f; vm_compute; reflexivity).
  rewrite forallb_forall in H. intros Hs Ht.
  apply list_elem_of_In, H in Hs. rewrite Ht, decide_True in Hs by done.
  apply andb_true_iff in Hs as [Hs ->]. by apply bool_decide_eq_true in Hs.
Qed.

Lemma enter_before_save f :
  SEnter f ∈ upto (save_step f) (script_steps true).
Proof. destruct f; by apply (bool_decide_unpack _); vm_compute. Qed.

(** X11: a function that was not entered has not touched its file.  In
    every run of the script, the path of a function that the run did not
    enter holds at the end what it held at the start: after a failure the
    models of the functions that were not reached are the old ones, when
    there are any. *)
Theorem function_not_entered_leaves_its_file (is_main : bool) (w : World) (f : ModelFn) :
  let w' := snd (script oracle is_main w) in
  f ∉ invoked (since w w') ->
  fs w' !! ("CoreMLModels/" +:+ file_name f) = fs w !! ("CoreMLModels/" +:+ file_name f).
Proof.
  destruct (script oracle is_main w) as [r w'] eqn:H. simpl.
  apply script_ran, ran_shape in H as (l1 & l2 & tail & Hl & Hfs & _ & Hs & _).
  intros Hnot. rewrite Hfs. apply fs_after_frame. intros s Hin Ht.
  apply Hnot. rewrite Hs. unfold invoked. rewrite omap_app.
  apply elem_of_app. left. apply list_elem_of_omap.
  exists (EvEnter f). split; [|reflexivity].
  apply list_elem_of_split_l in Hin as (a & bb & -> & Ha).
  rewrite <- app_assoc in Hl. simpl in Hl.
  assert (Hsave : is_main = true /\ s = save_step f).
  { apply script_writes_by_save; [|exact Ht].
    rewrite Hl. apply elem_of_app. right. by left. }
  destruct Hsave as [-> ->].
  destruct (upto_past_spec a (bb ++ l2) (save_step f) Ha) as [Hup _].
  rewrite <- Hl in Hup. rewrite map_app. apply elem_of_app. left.
  apply list_elem_of_fmap. exists (SEnter f). split; [reflexivity|].
  rewrite <- Hup. apply enter_before_save.
Qed.

(** X12: no path is saved twice in one run: the paths of the saves a run of
    the script has made are pairwise different, so no function overwrites
    the file of another. *)
Theorem no_path_is_saved_twice (is_main : bool) (w : World) :
  NoDup (map fst (saves (since w (snd (script oracle is_main w))))).
Proof.
  destruct (script oracle is_main w) as [r w'] eqn:H. simpl.
  apply script_ran in H.
  destruct (ran_omap_prefix saved _ _ _ _ saved_raise H) as [k Hk].
  assert (Hd : NoDup (map fst (omap saved (map ok_event (script_steps is_main)))))
    by (destruct is_main; by apply (bool_decide_unpack _); vm_compute).
  rewrite Hk, map_app in Hd. by apply NoDup_app in Hd as [? _].
Qed.

(** ** The conversion is asked for the network that was built *)

(** X13: in every call of any of the seven functions, the model handed to
    [ct.convert] is the network just built, compiled with the optimizer
    [adam]; its first layer is an [Input] layer, and the one input tensor
    declared to the conversion has that layer's name and that layer's shape
    behind a batch dimension of 1; one output tensor is declared, by name
    only. *)
Theorem conversion_input_matches_network
    (f : ModelFn) (w : World) (km : KerasModel) (ins outs : list TensorType)
    (tgt : Target) (cu : ComputeUnit) (o : option Exn) :
  EvCall (CConvert km ins outs tgt cu) o ∈ since w (snd (create oracle f w)) ->
  exists shape name rest loss out,
    km = mkKeras (Input shape name :: rest) (Some ("adam", loss)) /\
    ins = [mkTensorType (Some (1 :: shape)) name] /\
    outs = [mkTensorType None out] /\
    EvCall (CSequential (Input shape name :: rest)) None ∈ since w (snd (create oracle f w)).
Proof.
  destruct (create oracle f w) as [r w'] eqn:H. simpl. intros Hin.
  apply create_ran in H as [HR _].
  pose proof (ran_calls _ _ _ _ _ _ _ HR Hin) as Hc.
  assert (Hseq : EvCall (CSequential (r_layers (recipe_of f))) None ∈ since w w').
  { apply ran_shape in HR as (l1 & l2 & tail & Hl & _ & _ & Hs & Ht).
    rewrite Hs in Hin |- *. apply elem_of_app. left.
    assert (Hl1 : SCall (CConvert km ins outs tgt cu) ∈ l1 ++ take 1 l2).
    { apply elem_of_app in Hin as [Hin|Hin].
      - apply list_elem_of_fmap in Hin as (s & Heq & Hs').
        destruct s as [g|g|c]; try discriminate. injection Heq as ->.
        apply elem_of_app. by left.
      - destruct Ht as [(_ & _ & ->)|(c & e & l3 & _ & -> & ->)].
        + by apply elem_of_nil in Hin.
        + apply list_elem_of_singleton in Hin. injection Hin as -> _.
          apply elem_of_app. right. by left. }
    unfold pipeline_steps, pipeline_calls in Hl. simpl in Hl.
    destruct l1 as [|s1 [|s2 l1]]; simpl in Hl.
    - subst l2. simpl in Hl1. apply list_elem_of_singleton in Hl1. discriminate.
    - injection Hl as <- <-. simpl in Hl1.
      rewrite !elem_of_cons, elem_of_nil in Hl1.
      destruct Hl1 as [?|[?|[]]]; discriminate.
    - injection Hl as <- <- _. simpl. right. by left. }
  unfold pipeline_steps, pipeline_calls in Hc. simpl in Hc.
  rewrite !elem_of_cons, elem_of_nil in Hc.
  destruct Hc as [?|[?|[?|[Hc|[?|[?|[?|[]]]]]]]]; try discriminate.
  injection Hc as -> -> -> -> ->. clear Hin HR.
  destruct f; do 5 eexists; (split; [reflexivity|]);
    (split; [reflexivity|]); (split; [reflexivity|]); exact Hseq.
Qed.

End Further.

(** * Concrete runs, continued *)

(** [create_arrhythmia_detection_model] on an ASCII console, in a world
    that has the output directory: the model is saved, the confirmation
    line cannot be printed, the call fails with the file on disk. *)
Lemma failed_call_effects_by_failing_call_witness :
  let e := PyExc "UnicodeEncodeError" "ascii codec cannot encode character" in
  let c := CPrint "✅ Created ECG_Arrhythmia.mlmodel" in
  let w' := record (EvCall c (Some e))
              (after (take 5 (pipeline_steps Arrhythmia (recipe_of Arrhythmia))) with_dir) in
  create ascii_console Arrhythmia with_dir = (inl e, w') /\
  exists pre c,
    since with_dir w' = pre ++ [EvCall c (Some e)] /\
    match c with
    | CPrint _ =>
        fs w' = <["CoreMLModels/" +:+ file_name Arrhythmia
                  := File (exported (recipe_of Arrhythmia))]> (fs with_dir)
    | CSave _ _ => stdout w' = stdout with_dir
    | _ => fs w' = fs with_dir /\ stdout w' = stdout with_dir
    end.
Proof.
  intros e c w'.
  assert (H : create ascii_console Arrhythmia with_dir = (inl e, w'))
    by (vm_compute; reflexivity).
  split; [exact H|].
  exact (failed_call_effects_by_failing_call
           ascii_console Arrhythmia with_dir w' e H).
Defined.

(** The main program run twice from the empty world. *)
Lemma rerun_leaves_same_paths_witness :
  let w1 := after (script_steps true) blank in
  let w2 := after (script_steps true) w1 in
  script quiet true blank = (inr tt, w1) /\
  script quiet true w1 = (inr tt, w2) /\
  is_dir <$> fs w2 = is_dir <$> fs w1 /\
  map fst (saves (since w1 w2)) = map fst (saves (since blank w1)) /\
  printed_since w1 w2 = printed_since blank w1.
Proof.
  intros w1 w2.
  assert (H1 : script quiet true blank = (inr tt, w1)) by (vm_compute; reflexivity).
  assert (H2 : script quiet true w1 = (inr tt, w2)) by (vm_compute; reflexivity).
  split; [exact H1|]. split; [exact H2|].
  exact (rerun_leaves_same_paths quiet true blank w1 w2 H1 H2).
Defined.

(** The main program from the empty world has printed, so the directory
    came first. *)
Lemma directory_exists_before_any_output_witness :
  printed_since blank (snd (script quiet true blank)) <> [] /\
  EvCall (CMakedirs "CoreMLModels" true) None
    ∈ since blank (snd (script quiet true blank)) /\
  fs (snd (script quiet true blank)) !! "CoreMLModels" = Some Dir.
Proof.
  assert (H : printed_since blank (snd (script quiet true blank)) <> [])
    by (vm_compute; discriminate).
  split; [exact H|].
  exact (directory_exists_before_any_output quiet true blank
           (or_intror (or_introl H))).
Defined.

(** The main program when [CoreMLModels] is a regular file. *)
Lemma file_in_place_of_directory_stops_the_script_witness :
  let e := PyExc "FileExistsError" "[Errno 17] File exists: 'CoreMLModels'" in
  let w' := record (EvCall (CMakedirs "CoreMLModels" true) (Some e))
              (after import_steps blocked) in
  fs blocked !! "CoreMLModels"
    = Some (File (mkMLModel (mkKeras [] None) [] [] iOS15 ALL "" "" "")) /\
  script quiet true blocked = (inl e, w') /\
  fs w' = fs blocked /\ stdout w' = stdout blocked /\ invoked (since blocked w') = [].
Proof.
  intros e w'.
  assert (Hf : fs blocked !! "CoreMLModels"
               = Some (File (mkMLModel (mkKeras [] None) [] [] iOS15 ALL "" "" "")))
    by (vm_compute; reflexivity).
  assert (H : script quiet true blocked = (inl e, w')) by (vm_compute; reflexivity).
  split; [exact Hf|]. split; [exact H|].
  exact (proj2 (file_in_place_of_directory_stops_the_script
                  quiet true blocked w' (inl e) _ Hf H)).
Defined.

(** The main program from the empty world when no call raises: the
    troponin function has returned and left its file. *)
Lemma returned_function_left_its_file_witness :
  EvReturn Troponin ∈ since blank (snd (script quiet true blank)) /\
  ("✅ Created " +:+ file_name Troponin)
    ∈ printed_since blank (snd (script quiet true blank)) /\
  fs (snd (script quiet true blank)) !! ("CoreMLModels/" +:+ file_name Troponin)
    = Some (File (exported (recipe_of Troponin))).
Proof.
  assert (H : EvReturn Troponin ∈ since blank (snd (script quiet true blank)))
    by (apply (bool_decide_unpack _); vm_compute; exact I).
  split; [exact H|].
  exact (returned_function_left_its_file quiet true blank Troponin H).
Defined.

(** The main program when the disk is full: the first [save] raises, the
    glucose function is never entered and its path is as it was. *)
Lemma function_not_entered_leaves_its_file_witness :
  (Glucose ∉ invoked (since blank (snd (script disk_full true blank)))) /\
  fs (snd (script disk_full true blank)) !! ("CoreMLModels/" +:+ file_name Glucose)
    = fs blank !! ("CoreMLModels/" +:+ file_name Glucose).
Proof.
  assert (H : Glucose ∉ invoked (since blank (snd (script disk_full true blank))))
    by (apply (bool_decide_unpack _); vm_compute; exact I).
  split; [exact H|].
  exact (function_not_entered_leaves_its_file disk_full true blank Glucose H).
Defined.

(** The conversion call of [create_fall_detection_model]. *)
Lemma conversion_input_matches_network_witness :
  let km := compiled (recipe_of FallDetection) in
  let ins := [mkTensorType (Some [1; 100; 6]) "imu_data"] in
  let outs := [mkTensorType None "fall_probability"] in
  EvCall (CConvert km ins outs iOS15 ALL) None
    ∈ since blank (snd (create quiet FallDetection blank)) /\
  exists shape name rest loss out,
    km = mkKeras (Input shape name :: rest) (Some ("adam", loss)) /\
    ins = [mkTensorType (Some (1 :: shape)) name] /\
    outs = [mkTensorType None out] /\
    EvCall (CSequential (Input shape name :: rest)) None
      ∈ since blank (snd (create quiet FallDetection blank)).
Proof.
  intros km ins outs.
  assert (H : EvCall (CConvert km ins outs iOS15 ALL) None
              ∈ since blank (snd (create quiet FallDetection blank)))
    by (apply (bool_decide_unpack _); vm_compute; exact I).
  split; [exact H|].
  exact (conversion_input_matches_network quiet FallDetection blank
           km ins outs iOS15 ALL None H).
Defined.

(** An import of the module in a world that already has the directory. *)
Lemma output_dir_creation_idempotent_witness :
  let w' := after (script_steps false) with_dir in
  fs with_dir !! "CoreMLModels" = Some Dir /\
  script quiet false with_dir = (inr tt, w') /\
  EvCall (CMakedirs "CoreMLModels" true) None ∈ since with_dir w' /\
  fs w' = fs with_dir /\ stdout w' = stdout with_dir.
Proof.
  intros w'.
  assert (Hd : fs with_dir !! "CoreMLModels" = Some Dir) by (vm_compute; reflexivity).
  assert (H : script quiet false with_dir = (inr tt, w')) by (vm_compute; reflexivity).
  split; [exact Hd|]. split; [exact H|].
  destruct (output_dir_creation_idempotent quiet false with_dir w' (inr tt) Hd H)
    as (_ & _ & Hcall & Hsame).
  split.
  - apply Hcall. intros m e. unfold w'. rewrite since_after.
    apply ok_event_not_raise.
  - exact (Hsame eq_refl).
Defined.
